(** * geo_app: raster merge and shapefile cropping

    A shallow embedding of [app/processing/ShapeCropper.py] and
    [app/processing/MergeRaster.py].

    The two Python files orchestrate calls into rasterio and geopandas and
    touch the file system.  The embedding keeps that shape:

    - the file system, the table of open dataset handles and the log of
      library calls form an explicit [World], threaded through a small
      state-and-exception monad [M];
    - the numerical work of the geospatial libraries (mosaic, reprojection,
      masking, overlay, driver checks) is a parameter [Lib] of the
      development; what the Python code itself decides (order of calls,
      arguments, metadata update, output paths, error propagation, which
      handles are closed) is written out. *)

From Stdlib Require Import ZArith Ascii.
From stdpp Require Import gmap strings list fin_maps.

(** ** Paths *)

Module PosixPath.

Definition sep : ascii := "/"%char.

Definition startswith_sep (s : string) : bool :=
  match s with
  | String c _ => Ascii.eqb c sep
  | EmptyString => false
  end.

Fixpoint endswith_sep (s : string) : bool :=
  match s with
  | EmptyString => false
  | String c EmptyString => Ascii.eqb c sep
  | String _ r => endswith_sep r
  end.

(** [os.path.join(a, b)] (posixpath, two arguments). *)
Definition join (a b : string) : string :=
  if startswith_sep b then b
  else if bool_decide (a = EmptyString) || endswith_sep a then a +:+ b
  else a +:+ "/" +:+ b.

(** [s.rstrip('/')] on the reversed character list. *)
Fixpoint lstrip_sep (l : list ascii) : list ascii :=
  match l with
  | c :: r => if Ascii.eqb c sep then lstrip_sep r else l
  | [] => []
  end.

(** Drop the characters after the last separator; the argument is the
    path reversed, the result is [p[:p.rfind('/')+1]] reversed. *)
Fixpoint drop_basename (l : list ascii) : list ascii :=
  match l with
  | c :: r => if Ascii.eqb c sep then l else drop_basename r
  | [] => []
  end.

(** [os.path.dirname(p)] (posixpath): the head up to the last separator,
    with trailing separators removed unless the head is made of
    separators only. *)
Definition dirname (p : string) : string :=
  let head := drop_basename (rev (String.list_ascii_of_string p)) in
  match lstrip_sep head with
  | [] => String.string_of_list_ascii (rev head)
  | stripped => String.string_of_list_ascii (rev stripped)
  end.

(** Cut a string at every separator. *)
Fixpoint split_sep (s : string) : list string :=
  match s with
  | EmptyString => [EmptyString]
  | String c r =>
      if Ascii.eqb c sep then EmptyString :: split_sep r
      else match split_sep r with
           | h :: t => String c h :: t
           | [] => [String c EmptyString]
           end
  end.

(** [pathlib.PurePosixPath(s).parts] without the anchor: empty components
    and ["."] components are dropped. *)
Definition parts (s : string) : list string :=
  filter (λ x, x ≠ EmptyString ∧ x ≠ ".") (split_sep s).

End PosixPath.

(** A file-system entry is named by the list of its path components from
    the root.  A relative path is read from the working directory.
    Names are compared component by component: symbolic links and [".."]
    components are not interpreted. *)
Definition resolve (cwd p : string) : list string :=
  if PosixPath.startswith_sep p then PosixPath.parts p
  else PosixPath.parts cwd ++ PosixPath.parts p.

(** ** Geospatial values *)

Definition CRS := string.

(** The six coefficients of an affine geo-transform. *)
Definition Affine := (Z * Z * Z * Z * Z * Z)%type.

(** A pixel array as rasterio returns it from [mask] and [merge]: three
    dimensions, bands first. *)
Record ndarray := {
  nd_count : Z;
  nd_height : Z;
  nd_width : Z;
  nd_values : list Z
}.

(** [a.shape] *)
Definition shape (a : ndarray) : list Z := [nd_count a; nd_height a; nd_width a].

Inductive MetaVal :=
| MNone
| MStr (s : string)
| MInt (n : Z)
| MCrs (c : CRS)
| MAffine (t : Affine).

(** A dataset's [meta] dictionary (keys driver, dtype, nodata, width,
    height, count, crs, transform in rasterio). *)
Abbreviation Meta := (gmap string MetaVal).

Definition Polygon := list (Z * Z).

(** A GeoDataFrame: a coordinate reference system, a geometry column and
    attribute rows. *)
Record Layer := {
  layer_crs : option CRS;
  layer_geometry : list Polygon;
  layer_rows : list (list string)
}.

(** ** The world *)

Inductive Node :=
| Dir
| RasterFile (meta : Meta) (pixels : option ndarray)
| VectorFile (layer : Layer).

Inductive Mode := ReadMode | WriteMode.

(** An open rasterio dataset. *)
Record Dataset := {
  ds_handle : nat;
  ds_mode : Mode;
  ds_name : list string;
  ds_meta : Meta;
  ds_pixels : option ndarray
}.

(** The value under ["crs"] of a [meta] dictionary, if it is a CRS. *)
Definition meta_crs (meta : Meta) : option CRS :=
  match meta !! "crs" with
  | Some (MCrs c) => Some c
  | _ => None
  end.

(** [ds.crs] is the CRS of [ds.meta]. *)
Definition ds_crs (ds : Dataset) : option CRS := meta_crs (ds_meta ds).

(** A Python value as the second argument of [gpd.overlay] receives it. *)
Inductive PyArg :=
| PyStr (s : option string)
| PyFrame (l : Layer).

(** Calls into rasterio and geopandas, in the order they are made. *)
Inductive Event :=
| EvOpenRead (path : option string)
| EvReadFile (path : string)
| EvToCrs (l : Layer) (target : option CRS)
| EvMask (dataset : nat) (shapes : list Polygon) (crop : bool)
| EvMerge (datasets : list nat)
| EvOverlay (df1 : Layer) (df2 : PyArg) (how : string)
| EvOpenWrite (path : string) (meta : Meta)
| EvWrite (dataset : nat) (a : ndarray)
| EvClose (dataset : nat)
| EvToFile (l : Layer) (path : string).

Record World := {
  fs : gmap (list string) Node;
  handles : list (nat * Mode);
  next_handle : nat;
  trace : list Event
}.

Definition set_fs (f : gmap (list string) Node) (w : World) : World :=
  {| fs := f; handles := handles w; next_handle := next_handle w; trace := trace w |}.

Definition log (e : Event) (w : World) : World :=
  {| fs := fs w; handles := handles w; next_handle := next_handle w;
     trace := trace w ++ [e] |}.

(** ** Exceptions and the monad *)

Inductive exn :=
| ValueError (msg : string)
| IndexError
| AttributeError (attr : string)
| TypeError
| FileExistsError
| FileNotFoundError
| NotADirectoryError
| RasterioIOError
| DataSourceError
| LibraryError (op : string).

Inductive result (A : Type) :=
| Ok (a : A)
| Raise (e : exn).
Arguments Ok {A} a.
Arguments Raise {A} e.

Definition M (A : Type) : Type := World → result A * World.

Definition ret {A} (a : A) : M A := λ w, (Ok a, w).
Definition raise {A} (e : exn) : M A := λ w, (Raise e, w).
Definition bind {A B} (m : M A) (k : A → M B) : M B :=
  λ w, match m w with
       | (Ok a, w') => k a w'
       | (Raise e, w') => (Raise e, w')
       end.
Definition get : M World := λ w, (Ok w, w).
Definition modify (f : World → World) : M unit := λ w, (Ok tt, f w).
Definition lift {A} (r : result A) : M A := λ w, (r, w).

(** [try: body finally: cleanup] *)
Definition finally {A} (body : M A) (cleanup : M unit) : M A :=
  λ w, match body w with
       | (r, w') => match cleanup w' with
                    | (Ok _, w'') => (r, w'')
                    | (Raise e, w'') => (Raise e, w'')
                    end
       end.

#[global] Instance M_ret : MRet M := @ret.
#[global] Instance M_bind : MBind M := λ A B k m, bind m k.

(** [t[i]] on a tuple or list *)
Definition index {A} (l : list A) (i : nat) : M A :=
  match l !! i with
  | Some x => ret x
  | None => raise IndexError
  end.

(** Truth value of an [Optional[str]]: [None] and the empty string are
    false. *)
Definition truthy (p : option string) : bool :=
  match p with
  | None => false
  | Some s => negb (bool_decide (s = EmptyString))
  end.


(** ** The file system *)

Section FileSystem.

Implicit Type f : gmap (list string) Node.
Implicit Type k : list string.

(** The root and the working directory always exist; they are the entry
    with no component. *)
Definition is_dir f k : bool :=
  match k with
  | [] => true
  | _ => match f !! k with
         | Some Dir => true
         | _ => false
         end
  end.

Definition exists_at f k : bool :=
  match k with
  | [] => true
  | _ => bool_decide (is_Some (f !! k))
  end.

(** [PurePath.parent] *)
Definition parent k : list string := removelast k.

(** [os.mkdir(k)]: the entry must be new and its parent a directory. *)
Definition os_mkdir k f : result (gmap (list string) Node) :=
  if exists_at f k then Raise FileExistsError
  else if is_dir f (parent k) then Ok (<[k := Dir]> f)
  else if exists_at f (parent k) then Raise NotADirectoryError
  else Raise FileNotFoundError.

(** [Path.mkdir(parents=True, exist_ok=True)], by recursion on the path
    read backwards ([rk] is [k] reversed, so its tail is the parent):
<<
    try: os.mkdir(self)
    except FileNotFoundError:
        if not parents or self.parent == self: raise
        self.parent.mkdir(parents=True, exist_ok=True)
        self.mkdir(mode, parents=False, exist_ok=exist_ok)
    except OSError:
        if not exist_ok or not self.is_dir(): raise
>> *)
Fixpoint mkdir_parents (rk : list string) f : result (gmap (list string) Node) :=
  let k := rev rk in
  match os_mkdir k f with
  | Ok f' => Ok f'
  | Raise FileNotFoundError =>
      match rk with
      | [] => Raise FileNotFoundError
      | _ :: rparent =>
          match mkdir_parents rparent f with
          | Raise e => Raise e
          | Ok f1 =>
              match os_mkdir k f1 with
              | Ok f2 => Ok f2
              | Raise FileNotFoundError => Raise FileNotFoundError
              | Raise e => if is_dir f1 k then Ok f1 else Raise e
              end
          end
      end
  | Raise e => if is_dir f k then Ok f else Raise e
  end.

End FileSystem.

(** ** The geospatial libraries *)

(** What rasterio and geopandas compute.  Each operation either returns a
    value or raises. *)
Record Lib := {
  (** [GeoDataFrame.to_crs(crs)] *)
  lib_to_crs : Layer → option CRS → result Layer;
  (** [rasterio.mask.mask(dataset, shapes, crop)] on the dataset's content *)
  lib_mask : Meta → option ndarray → list Polygon → bool → result (ndarray * Affine);
  (** [rasterio.merge.merge(datasets)] on the contents of a non-empty list *)
  lib_merge : list (Meta * option ndarray) → result (ndarray * Affine);
  (** [geopandas.overlay(df1, df2, how)] on two frames *)
  lib_overlay : Layer → Layer → string → result Layer;
  (** does the driver accept to create a dataset with these keywords *)
  lib_create : Meta → result unit;
  (** does the dataset accept this array *)
  lib_write : Meta → ndarray → result unit
}.

Section Program.

Variable L : Lib.
(** [os.getcwd()] *)
Variable cwd : string.

(** *** Library calls *)

Definition alloc_handle (mode : Mode) : M nat :=
  λ w, (Ok (next_handle w),
        {| fs := fs w; handles := handles w ++ [(next_handle w, mode)];
           next_handle := S (next_handle w); trace := trace w |}).

(** [rasterio.open(path)], read mode. *)
Definition rasterio_open (path : option string) : M Dataset :=
  modify (log (EvOpenRead path));;
  match path with
  | None => raise TypeError
  | Some p =>
      w ← get;
      match fs w !! resolve cwd p with
      | Some (RasterFile meta px) =>
          h ← alloc_handle ReadMode;
          mret {| ds_handle := h; ds_mode := ReadMode; ds_name := resolve cwd p;
                  ds_meta := meta; ds_pixels := px |}
      | _ => raise RasterioIOError
      end
  end.

(** [rasterio.open(path, "w", **meta)]: the file is created (or
    truncated) in an existing directory. *)
Definition rasterio_open_w (path : string) (meta : Meta) : M Dataset :=
  modify (log (EvOpenWrite path meta));;
  w ← get;
  let k := resolve cwd path in
  if bool_decide (k = []) || is_dir (fs w) k || negb (is_dir (fs w) (parent k))
  then raise RasterioIOError
  else
    lift (lib_create L meta);;
    modify (set_fs (<[k := RasterFile meta None]> (fs w)));;
    h ← alloc_handle WriteMode;
    mret {| ds_handle := h; ds_mode := WriteMode; ds_name := k;
            ds_meta := meta; ds_pixels := None |}.

(** [dst.write(a)] *)
Definition dataset_write (dst : Dataset) (a : ndarray) : M unit :=
  modify (log (EvWrite (ds_handle dst) a));;
  lift (lib_write L (ds_meta dst) a);;
  w ← get;
  modify (set_fs (<[ds_name dst := RasterFile (ds_meta dst) (Some a)]> (fs w))).

(** [ds.close()] *)
Definition dataset_close (ds : Dataset) : M unit :=
  modify (log (EvClose (ds_handle ds)));;
  modify (λ w, {| fs := fs w;
                  handles := filter (λ h, h.1 ≠ ds_handle ds) (handles w);
                  next_handle := next_handle w; trace := trace w |}).

(** [with rasterio.open(path, "w", **meta) as dst: body] *)
Definition with_open_w {A} (path : string) (meta : Meta) (body : Dataset → M A) : M A :=
  dst ← rasterio_open_w path meta;
  finally (body dst) (dataset_close dst).

(** [gpd.read_file(path)] *)
Definition gpd_read_file (path : option string) : M Layer :=
  match path with
  | None => raise TypeError
  | Some p =>
      modify (log (EvReadFile p));;
      w ← get;
      match fs w !! resolve cwd p with
      | Some (VectorFile l) => mret l
      | _ => raise DataSourceError
      end
  end.

(** [frame.to_crs(crs)] *)
Definition to_crs (frame : Layer) (crs : option CRS) : M Layer :=
  modify (log (EvToCrs frame crs));;
  lift (lib_to_crs L frame crs).

(** [mask(dataset=ds, shapes=shapes, crop=crop)] *)
Definition mask (ds : Dataset) (shapes : list Polygon) (crop : bool) : M (ndarray * Affine) :=
  modify (log (EvMask (ds_handle ds) shapes crop));;
  lift (lib_mask L (ds_meta ds) (ds_pixels ds) shapes crop).

(** [merge(datasets)].  rasterio reads [datasets[0]] before anything
    else, so the empty list raises [IndexError]. *)
Definition merge (datasets : list Dataset) : M (ndarray * Affine) :=
  modify (log (EvMerge (ds_handle <$> datasets)));;
  match datasets with
  | [] => raise IndexError
  | _ => lift (lib_merge L ((λ d, (ds_meta d, ds_pixels d)) <$> datasets))
  end.

(** [gpd.overlay(df1, df2, how=how)].  geopandas compares [df1.crs] with
    [df2.crs] first; a [str] or [None] has no such attribute. *)
Definition gpd_overlay (df1 : Layer) (df2 : PyArg) (how : string) : M Layer :=
  modify (log (EvOverlay df1 df2 how));;
  match df2 with
  | PyFrame l2 => lift (lib_overlay L df1 l2 how)
  | PyStr _ => raise (AttributeError "crs")
  end.

(** [frame.to_file(path)] *)
Definition to_file (frame : Layer) (path : string) : M unit :=
  modify (log (EvToFile frame path));;
  w ← get;
  let k := resolve cwd path in
  if bool_decide (k = []) || is_dir (fs w) k || negb (is_dir (fs w) (parent k))
  then raise DataSourceError
  else modify (set_fs (<[k := VectorFile frame]> (fs w))).

(** [Path(p).mkdir(parents=True, exist_ok=True)] *)
Definition Path_mkdir (p : string) : M unit :=
  w ← get;
  f ← lift (mkdir_parents (rev (resolve cwd p)) (fs w));
  modify (set_fs f).

(** [os.path.join(a, b)] where [a] may be [None] *)
Definition os_path_join (a : option string) (b : string) : M string :=
  match a with
  | Some s => mret (PosixPath.join s b)
  | None => raise TypeError
  end.

(** *** ShapeCropper.py: [GeoData] *)

(** The attributes of a [GeoData] instance.  [output_raster_path] and
    [output_vector_path] are set by [__post_init__] only under its two
    conditions, so they may be missing. *)
Record GeoData := {
  shapefile_path : string;
  raster_path : option string;
  vector_path : option string;
  output_path : string;
  output_raster_path : option string;
  output_vector_path : option string
}.

(** The instance dictionary.  The class itself adds the dataclass
    methods and the defaults of the four fields, nothing else. *)
Definition GeoData_dict (g : GeoData) : gmap string (option string) :=
  let d0 : gmap string (option string) :=
    {[ "shapefile_path" := Some (shapefile_path g);
       "raster_path" := raster_path g;
       "vector_path" := vector_path g;
       "output_path" := Some (output_path g) ]} in
  let d1 := match output_raster_path g with
            | Some p => <["output_raster_path" := Some p]> d0
            | None => d0
            end in
  match output_vector_path g with
  | Some p => <["output_vector_path" := Some p]> d1
  | None => d1
  end.

(** [g.name] *)
Definition getattr (g : GeoData) (name : string) : M (option string) :=
  match GeoData_dict g !! name with
  | Some v => mret v
  | None => raise (AttributeError name)
  end.

(** The default of the [output_path] field *)
Definition default_output_path : string := PosixPath.join cwd "output".

(** [GeoData(shapefile_path, raster_path, vector_path, output_path)]:
    the generated [__init__] stores the fields, then [__post_init__]
    runs. *)
Definition GeoData_new (shapefile : string) (raster vector : option string)
    (output : option string) : M GeoData :=
  let out := default default_output_path output in
  if negb (truthy raster) && negb (truthy vector)
  then raise (ValueError "At least one of raster or vector file should exist.")
  else
    Path_mkdir out;;
    orp ← (if truthy raster
           then let p := PosixPath.join out "output_raster" in
                Path_mkdir p;; mret (Some p)
           else mret None);
    ovp ← (if truthy vector
           then let p := PosixPath.join out "output_vector" in
                Path_mkdir p;; mret (Some p)
           else mret None);
    mret {| shapefile_path := shapefile; raster_path := raster;
            vector_path := vector; output_path := out;
            output_raster_path := orp; output_vector_path := ovp |}.

(** [meta.update({"driver": "GTiff", "height": h, "width": w,
    "transform": t})] *)
Definition update_meta (meta : Meta) (h w : Z) (t : Affine) : Meta :=
  <["transform" := MAffine t]>
    (<["width" := MInt w]>
       (<["height" := MInt h]>
          (<["driver" := MStr "GTiff"]> meta))).

(** *** ShapeCropper.py: [RasterCropper] *)

Record RasterCropper := {
  rc_geo_data : GeoData;
  rc_raster : Dataset
}.

(** [RasterCropper(geo_data)]: [__post_init__] opens the raster. *)
Definition RasterCropper_new (g : GeoData) : M RasterCropper :=
  p ← getattr g "raster_path";
  raster ← rasterio_open p;
  mret {| rc_geo_data := g; rc_raster := raster |}.

Definition RasterCropper_transform_crs (self : RasterCropper) : M Layer :=
  p ← getattr (rc_geo_data self) "shapefile_path";
  shapefile ← gpd_read_file p;
  to_crs shapefile (ds_crs (rc_raster self)).

Definition RasterCropper_crop (self : RasterCropper) : M (ndarray * Affine) :=
  shapefile_transformed ← RasterCropper_transform_crs self;
  mask (rc_raster self) (layer_geometry shapefile_transformed) true.

Definition RasterCropper_execute (self : RasterCropper) : M unit :=
  '(raster_cropped, raster_transform) ← RasterCropper_crop self;
  let raster_meta := ds_meta (rc_raster self) in
  h ← index (shape raster_cropped) 1;
  w ← index (shape raster_cropped) 2;
  let raster_meta := update_meta raster_meta h w raster_transform in
  dir ← getattr (rc_geo_data self) "output_raster_path";
  path ← os_path_join dir "raster_cropped.tif";
  with_open_w path raster_meta (λ dst, dataset_write dst raster_cropped).

(** *** ShapeCropper.py: [VectorCropper] *)

Record VectorCropper := {
  vc_geo_data : GeoData;
  vc_shapefile : Layer
}.

Definition VectorCropper_new (g : GeoData) : M VectorCropper :=
  p ← getattr g "shapefile_path";
  shapefile ← gpd_read_file p;
  mret {| vc_geo_data := g; vc_shapefile := shapefile |}.

Definition VectorCropper_transform_crs (self : VectorCropper) : M Layer :=
  crs ← getattr (vc_geo_data self) "get_crs";
  to_crs (vc_shapefile self) crs.

Definition VectorCropper_crop (self : VectorCropper) : M Layer :=
  shapefile_transformed ← VectorCropper_transform_crs self;
  v ← getattr (vc_geo_data self) "vector_path";
  gpd_overlay shapefile_transformed (PyStr v) "intersection".

Definition VectorCropper_execute (self : VectorCropper) : M unit :=
  vector_cropped ← VectorCropper_crop self;
  dir ← getattr (vc_geo_data self) "output_vector_path";
  path ← os_path_join dir "vector_cropped.shp";
  to_file vector_cropped path.

(** *** ShapeCropper.py: [BothCropper] *)

Record BothCropper := {
  bc_geo_data : GeoData;
  bc_raster : Dataset;
  bc_shapefile : Layer
}.

Definition BothCropper_new (g : GeoData) : M BothCropper :=
  p ← getattr g "raster_path";
  raster ← rasterio_open p;
  s ← getattr g "shapefile_path";
  shapefile ← gpd_read_file s;
  mret {| bc_geo_data := g; bc_raster := raster; bc_shapefile := shapefile |}.

Definition BothCropper_transform_crs (self : BothCropper) : M Layer :=
  to_crs (bc_shapefile self) (ds_crs (bc_raster self)).

Definition BothCropper_crop (self : BothCropper) : M (ndarray * Affine * Layer) :=
  shapefile_transformed ← BothCropper_transform_crs self;
  '(raster_cropped, raster_transform) ←
    mask (bc_raster self) (layer_geometry shapefile_transformed) true;
  v ← getattr (bc_geo_data self) "vector_path";
  vector_cropped ← gpd_overlay shapefile_transformed (PyStr v) "intersection";
  mret (raster_cropped, raster_transform, vector_cropped).

Definition BothCropper_execute (self : BothCropper) : M unit :=
  '(raster_cropped, raster_transform, vector_cropped) ← BothCropper_crop self;
  let raster_meta := ds_meta (bc_raster self) in
  h ← index (shape raster_cropped) 1;
  w ← index (shape raster_cropped) 2;
  let raster_meta := update_meta raster_meta h w raster_transform in
  dir ← getattr (bc_geo_data self) "output_raster_path";
  path ← os_path_join dir "raster_cropped.tif";
  with_open_w path raster_meta (λ dst, dataset_write dst raster_cropped);;
  vdir ← getattr (bc_geo_data self) "output_vector_path";
  vpath ← os_path_join vdir "vector_cropped.shp";
  to_file vector_cropped vpath.

(** *** ShapeCropper.py: [Application] *)

(** The concrete subclasses of the abstract class [Cropper]. *)
Inductive Cropper :=
| IsRasterCropper (c : RasterCropper)
| IsVectorCropper (c : VectorCropper)
| IsBothCropper (c : BothCropper).

(** [cropper.execute()], by dynamic dispatch *)
Definition Cropper_execute (c : Cropper) : M unit :=
  match c with
  | IsRasterCropper c => RasterCropper_execute c
  | IsVectorCropper c => VectorCropper_execute c
  | IsBothCropper c => BothCropper_execute c
  end.

Record Application := {
  app_geo_data : GeoData;
  app_cropper : Cropper
}.

Definition Application_execute (self : Application) : M unit :=
  Cropper_execute (app_cropper self);;
  mret tt.

(** *** MergeRaster.py *)

(** [[rasterio.open(path) for path in raster_paths]] *)
Fixpoint open_all (raster_paths : list string) : M (list Dataset) :=
  match raster_paths with
  | [] => mret []
  | path :: rest =>
      d ← rasterio_open (Some path);
      ds ← open_all rest;
      mret (d :: ds)
  end.

Definition merge_raster (raster_paths : list string) (output_path : option string) : M unit :=
  raster_files ← open_all raster_paths;
  '(raster_merged, raster_transform) ← merge raster_files;
  first ← index raster_files 0;
  let raster_meta := ds_meta first in
  h ← index (shape raster_merged) 1;
  w ← index (shape raster_merged) 2;
  let raster_meta := update_meta raster_meta h w raster_transform in
  output_path ← match output_path with
                | None =>
                    p0 ← index raster_paths 0;
                    mret (PosixPath.join (PosixPath.dirname p0) "raster_merged.tif")
                | Some p => mret p
                end;
  with_open_w output_path raster_meta (λ dst, dataset_write dst raster_merged).

End Program.


(** * Vocabulary of the statements *)

(** A single name: no separator, not empty, not the dot. *)
Definition is_name (b : string) : Prop :=
  PosixPath.split_sep b = [b] ∧ b ≠ EmptyString ∧ b ≠ ".".

(** What a successful [mkdir] leaves: every entry that changed is a new
    directory on the way to the one asked for. *)
Definition grown_towards (k : list string) (f f' : gmap (list string) Node) : Prop :=
  ∀ j, f' !! j = f !! j ∨ (f !! j = None ∧ f' !! j = Some Dir ∧ j `prefix_of` k).

(** The errors [mkdir] raises. *)
Definition is_OSError (e : exn) : Prop :=
  e = FileExistsError ∨ e = FileNotFoundError ∨ e = NotADirectoryError.

(** Can a file be created at [k]: it names an entry other than a
    directory, inside a directory. *)
Definition creatable (f : gmap (list string) Node) (k : list string) : bool :=
  negb (bool_decide (k = []) || is_dir f k || negb (is_dir f (parent k))).

(** The world after a handle has been handed out, and after one has been
    closed. *)
Definition opened (mode : Mode) (w : World) : World :=
  {| fs := fs w; handles := handles w ++ [(next_handle w, mode)];
     next_handle := S (next_handle w); trace := trace w |}.

Definition closed (h : nat) (w : World) : World :=
  {| fs := fs w; handles := filter (λ x, x.1 ≠ h) (handles w);
     next_handle := next_handle w; trace := trace w ++ [EvClose h] |}.

Definition read_handles (n count : nat) : list (nat * Mode) :=
  (λ i, (i, ReadMode)) <$> seq n count.

(** Handle numbers are handed out in increasing order, so every open handle
    is below the next one. *)
Definition handles_fresh (w : World) : Prop :=
  Forall (λ h, h.1 < next_handle w) (handles w).

(** A computation that leaves the table of open handles as it found it,
    whatever its outcome. *)
Definition keeps_handles {A} (m : M A) : Prop :=
  ∀ w, handles_fresh w →
    handles (m w).2 = handles w ∧ next_handle w ≤ next_handle (m w).2.


(** The message of the configuration error. *)
Definition config_error : exn :=
  ValueError "At least one of raster or vector file should exist.".


(** The class of a cropper object. *)
Definition variant (c : Cropper) : string :=
  match c with
  | IsRasterCropper _ => "RasterCropper"
  | IsVectorCropper _ => "VectorCropper"
  | IsBothCropper _ => "BothCropper"
  end.

(** The selection rule the specification gives for the runner. *)
Definition selected_by_job (g : GeoData) : string :=
  if truthy (raster_path g) && truthy (vector_path g) then "BothCropper"
  else if truthy (raster_path g) then "RasterCropper"
  else "VectorCropper".

(** An application whose cropper is the one the rule selects for its job. *)
Definition selects_by_job (app : Application) : Prop :=
  variant (app_cropper app) = selected_by_job (app_geo_data app).

Section Vocabulary.

Variable cwd : string.

(** The three directories a job asks for. *)
Definition root_of (output : option string) : string :=
  default (default_output_path cwd) output.
Definition raster_dir (output : option string) : string :=
  PosixPath.join (root_of output) "output_raster".
Definition vector_dir (output : option string) : string :=
  PosixPath.join (root_of output) "output_vector".

(** The job a successful construction returns. *)
Definition job (shp : string) (r v output : option string) : GeoData :=
  {| shapefile_path := shp; raster_path := r; vector_path := v;
     output_path := root_of output;
     output_raster_path := if truthy r then Some (raster_dir output) else None;
     output_vector_path := if truthy v then Some (vector_dir output) else None |}.

(** The content of the raster file at a path, if there is one: what
    [rasterio.open(path)] can open. *)
Definition raster_at (f : gmap (list string) Node) (path : string)
    : option (Meta * option ndarray) :=
  match f !! resolve cwd path with
  | Some (RasterFile meta px) => Some (meta, px)
  | _ => None
  end.

(** The datasets [open_all] returns, with handles from [n] on. *)
Fixpoint opened_datasets (n : nat) (paths : list string)
    (contents : list (Meta * option ndarray)) : list Dataset :=
  match paths, contents with
  | p :: ps, c :: cs =>
      {| ds_handle := n; ds_mode := ReadMode; ds_name := resolve cwd p;
         ds_meta := c.1; ds_pixels := c.2 |} :: opened_datasets (S n) ps cs
  | _, _ => []
  end.

(** The path [merge_raster] writes to. *)
Definition merged_path (first : string) (output : option string) : string :=
  default (PosixPath.join (PosixPath.dirname first) "raster_merged.tif") output.

End Vocabulary.

(** Every entry of the tree hangs below a directory. *)
Definition fs_wf (f : gmap (list string) Node) : Prop :=
  map_Forall (λ k _, k ≠ [] ∧ is_dir f (parent k) = true) f.

(** The only difference between two trees is new directories, each at or
    above one of two places. *)
Definition grown_within (k1 k2 : list string) (f f' : gmap (list string) Node) : Prop :=
  ∀ j, f' !! j = f !! j
       ∨ (f !! j = None ∧ f' !! j = Some Dir ∧ (j `prefix_of` k1 ∨ j `prefix_of` k2)).

(** A computation that leaves the file system as it found it, whatever its
    outcome. *)
Definition keeps_fs {A} (m : M A) : Prop := ∀ w, fs (m w).2 = fs w.

(** The world after [merge_raster] has opened all of [paths]. *)
Definition after_opens (paths : list string) (w : World) : World :=
  {| fs := fs w;
     handles := handles w ++ read_handles (next_handle w) (length paths);
     next_handle := next_handle w + length paths;
     trace := trace w ++ ((λ p, EvOpenRead (Some p)) <$> paths) |}.

(** * Example data *)

Module Examples.

Definition cwd : string := "/home/user".

Definition transform : Affine := (10, 0, 500000, 0, -10, 4200000)%Z.

Definition meta_of (driver : string) (height width : Z) : Meta :=
  {[ "driver" := MStr driver; "dtype" := MStr "uint8"; "nodata" := MNone;
     "width" := MInt width; "height" := MInt height; "count" := MInt 1;
     "crs" := MCrs "EPSG:32633"; "transform" := MAffine transform ]}.

Definition pixels (height width : Z) (values : list Z) : ndarray :=
  {| nd_count := 1; nd_height := height; nd_width := width; nd_values := values |}.

Definition boundary : Layer :=
  {| layer_crs := Some "EPSG:4326";
     layer_geometry := [[(0, 0); (0, 20); (20, 20); (20, 0)]%Z];
     layer_rows := [["site"]] |}.

(** A small stand-in for the libraries: reprojection relabels the CRS,
    the mask keeps the first two rows and columns, the merge puts the
    first two tiles side by side. *)
Definition lib : Lib := {|
  lib_to_crs := λ l crs,
    match crs with
    | Some c => Ok {| layer_crs := Some c; layer_geometry := layer_geometry l;
                      layer_rows := layer_rows l |}
    | None => Raise (ValueError "Must pass either crs or epsg.")
    end;
  lib_mask := λ meta px shapes crop,
    match px, shapes with
    | Some a, _ :: _ =>
        Ok (pixels 2 2 (take 4 (nd_values a)), transform)
    | _, _ => Raise (ValueError "Input shapes do not overlap raster.")
    end;
  lib_merge := λ contents,
    match contents with
    | (_, Some a) :: rest =>
        Ok (pixels (nd_height a) (nd_width a * Z.of_nat (length contents))
              (nd_values a ++ concat ((λ c, from_option nd_values [] c.2) <$> rest)),
            transform)
    | _ => Raise (LibraryError "merge")
    end;
  lib_overlay := λ a b how,
    Ok {| layer_crs := layer_crs a; layer_geometry := layer_geometry a;
          layer_rows := layer_rows b |};
  lib_create := λ meta,
    match meta !! "driver" with
    | Some (MStr _) => Ok tt
    | _ => Raise RasterioIOError
    end;
  lib_write := λ meta a, Ok tt
|}.

Definition region : ndarray := pixels 3 3 [1; 2; 3; 4; 5; 6; 7; 8; 9]%Z.
Definition tile_a : ndarray := pixels 2 2 [1; 2; 3; 4]%Z.
Definition tile_b : ndarray := pixels 2 2 [5; 6; 7; 8]%Z.

Definition world : World :=
  {| fs := {[ ["home"] := Dir;
              ["home"; "user"] := Dir;
              ["home"; "user"; "boundary.shp"] := VectorFile boundary;
              ["home"; "user"; "region.tif"] := RasterFile (meta_of "PNG" 3 3) (Some region);
              ["home"; "user"; "parcels.shp"] := VectorFile boundary;
              ["home"; "user"; "tiles"] := Dir;
              ["home"; "user"; "tiles"; "a.tif"] := RasterFile (meta_of "PNG" 2 2) (Some tile_a);
              ["home"; "user"; "tiles"; "b.tif"] := RasterFile (meta_of "PNG" 2 2) (Some tile_b) ]};
     handles := []; next_handle := 0; trace := [] |}.

(** A raster-only job, and the world its construction leaves. *)
Definition raster_job : GeoData :=
  job cwd "boundary.shp" (Some "region.tif") None None.
Definition world_raster : World :=
  (GeoData_new cwd "boundary.shp" (Some "region.tif") None None world).2.

(** A job with both inputs, and the world its construction leaves. *)
Definition both_job : GeoData :=
  job cwd "boundary.shp" (Some "region.tif") (Some "parcels.shp") None.
Definition world_both : World :=
  (GeoData_new cwd "boundary.shp" (Some "region.tif") (Some "parcels.shp") None world).2.

(** An application given a raster-only job and a [VectorCropper]. *)
Definition mismatched_app : Application :=
  {| app_geo_data := raster_job;
     app_cropper := IsVectorCropper {| vc_geo_data := raster_job;
                                       vc_shapefile := boundary |} |}.

End Examples.

Module MoreExamples.
Import Examples.

(** A world where a file named [output] sits where the output root goes. *)
Definition world_root_taken : World :=
  set_fs (<[["home"; "user"; "output"] := VectorFile boundary]> (fs world)) world.

(** A world with the output root in place and a file named
    [output_vector] inside it. *)
Definition world_vector_taken : World :=
  set_fs (<[["home"; "user"; "output"; "output_vector"] := VectorFile boundary]>
            (<[["home"; "user"; "output"] := Dir]> (fs world))) world.

(** A world with one more tile, which holds no pixel data. *)
Definition world_hollow : World :=
  set_fs (<[["home"; "user"; "tiles"; "hollow.tif"] := RasterFile (meta_of "PNG" 2 2) None]>
            (fs world)) world.

(** The libraries with a driver that refuses every write. *)
Definition lib_no_write : Lib :=
  {| lib_to_crs := lib_to_crs lib; lib_mask := lib_mask lib; lib_merge := lib_merge lib;
     lib_overlay := lib_overlay lib; lib_create := lib_create lib;
     lib_write := λ _ _, Raise (LibraryError "write") |}.

(** The raster of the raster-only job, opened in [world_raster]. *)
Definition region_dataset : Dataset :=
  {| ds_handle := 0; ds_mode := ReadMode; ds_name := ["home"; "user"; "region.tif"];
     ds_meta := meta_of "PNG" 3 3; ds_pixels := Some region |}.

Definition raster_cropper : RasterCropper :=
  {| rc_geo_data := raster_job; rc_raster := region_dataset |}.

Definition reprojected_boundary : Layer :=
  {| layer_crs := Some "EPSG:32633"; layer_geometry := layer_geometry boundary;
     layer_rows := layer_rows boundary |}.

Definition cropped_region : ndarray := pixels 2 2 [1; 2; 3; 4]%Z.
Definition merged_tiles : ndarray := pixels 2 4 [1; 2; 3; 4; 5; 6; 7; 8]%Z.

(** A job whose raster does not exist, and the world its construction
    leaves. *)
Definition lost_job : GeoData :=
  job cwd "boundary.shp" (Some "missing.tif") None None.
Definition world_lost : World :=
  (GeoData_new cwd "boundary.shp" (Some "missing.tif") None None world).2.

(** A job with both inputs whose shapefile does not exist. *)
Definition no_shape_job : GeoData :=
  job cwd "nothing.shp" (Some "region.tif") (Some "parcels.shp") None.

End MoreExamples.

(** * Properties *)

(** ** Paths *)

Module PosixPathFacts.
Import PosixPath.

Lemma split_sep_nonempty s : split_sep s ≠ [].
Proof.
  destruct s as [|c r]; simpl; [done|].
  destruct (Ascii.eqb c sep); [done|].
  by destruct (split_sep r).
Qed.

Lemma append_nil (b : string) : EmptyString +:+ b = b.
Proof. reflexivity. Qed.

Lemma append_cons c (a b : string) : String c a +:+ b = String c (a +:+ b).
Proof. reflexivity. Qed.

Lemma split_sep_app_sep a b :
  split_sep (a +:+ String sep b) = split_sep a ++ split_sep b.
Proof.
  induction a as [|c a IH]; [done|].
  rewrite append_cons. simpl.
  destruct (Ascii.eqb c sep); rewrite IH; [done|].
  pose proof (split_sep_nonempty a) as Hne.
  by destruct (split_sep a).
Qed.

Lemma endswith_sep_inv a :
  endswith_sep a = true → ∃ a', a = a' +:+ String sep EmptyString.
Proof.
  induction a as [|c a IH]; simpl; [done|].
  destruct a as [|c' a].
  - intros H%Ascii.eqb_eq. subst c. by exists EmptyString.
  - intros H. destruct (IH H) as [a' Ha']. exists (String c a'). rewrite Ha'. reflexivity.
Qed.

Lemma string_app_assoc (a b c : string) : (a +:+ b) +:+ c = a +:+ (b +:+ c).
Proof. induction a; rewrite ?append_nil, ?append_cons; congruence. Qed.

Lemma startswith_sep_app a b :
  a ≠ EmptyString → startswith_sep (a +:+ b) = startswith_sep a.
Proof. by destruct a. Qed.

Lemma parts_name b : is_name b → parts b = [b].
Proof.
  intros (Hs & H1 & H2). unfold parts. rewrite Hs.
  rewrite filter_cons, decide_True by done. done.
Qed.

Lemma is_name_not_abs b : is_name b → startswith_sep b = false.
Proof.
  intros (Hs & H1 & H2). destruct b as [|c b]; [done|]. simpl in *.
  destruct (Ascii.eqb c sep); [|done].
  injection Hs as Hs _. done.
Qed.

Lemma parts_join a b : is_name b → parts (join a b) = parts a ++ [b].
Proof.
  intros Hb. unfold join. rewrite (is_name_not_abs b Hb).
  case_bool_decide as Ha; simpl.
  { subst a. rewrite append_nil, (parts_name b Hb). done. }
  destruct (endswith_sep a) eqn:He.
  - apply endswith_sep_inv in He as [a' ->].
    rewrite string_app_assoc, append_cons, append_nil. unfold parts.
    rewrite !split_sep_app_sep, !filter_app. f_equal.
    + simpl. rewrite filter_cons, decide_False by (by intros [? _]).
      by rewrite app_nil_r.
    + by apply parts_name.
  - unfold parts. change ("/" +:+ b) with (String sep b).
    rewrite split_sep_app_sep, filter_app. f_equal. by apply parts_name.
Qed.

Lemma startswith_sep_join a b :
  is_name b → startswith_sep (join a b) = startswith_sep a.
Proof.
  intros Hb. unfold join. rewrite (is_name_not_abs b Hb).
  case_bool_decide as Ha; simpl.
  { subst a. rewrite append_nil. by apply is_name_not_abs. }
  destruct (endswith_sep a); by apply startswith_sep_app.
Qed.

End PosixPathFacts.

(** Joining a name to a path names the entry of that name in the
    directory the path names. *)
Lemma resolve_join cwd a b :
  is_name b →
  resolve cwd (PosixPath.join a b) = resolve cwd a ++ [b].
Proof.
  intros Hb. unfold resolve.
  rewrite PosixPathFacts.startswith_sep_join, PosixPathFacts.parts_join by done.
  destruct (PosixPath.startswith_sep a); [done|]. by rewrite app_assoc.
Qed.

Lemma is_name_output_raster : is_name "output_raster".
Proof. repeat split; done. Qed.

Lemma is_name_output_vector : is_name "output_vector".
Proof. repeat split; done. Qed.

(** ** The file system *)

Section FileSystemFacts.

Implicit Type f : gmap (list string) Node.
Implicit Type k : list string.

Lemma is_dir_exists f k : is_dir f k = true → exists_at f k = true.
Proof.
  unfold is_dir, exists_at. destruct k; [done|].
  by destruct (f !! (s :: k)) as [[]|].
Qed.

Lemma os_mkdir_Ok k f f' :
  os_mkdir k f = Ok f' → f' = <[k := Dir]> f ∧ f !! k = None ∧ k ≠ [].
Proof.
  unfold os_mkdir. destruct (exists_at f k) eqn:E; [done|].
  destruct (is_dir f (parent k)); [|by destruct (exists_at f (parent k))].
  intros [= <-]. split; [done|]. unfold exists_at in E.
  destruct k; [done|]. apply bool_decide_eq_false in E.
  split; [|done]. by apply eq_None_not_Some.
Qed.

Lemma is_dir_insert_Dir f k : k ≠ [] → is_dir (<[k := Dir]> f) k = true.
Proof. intros Hk. unfold is_dir. destruct k; [done|]. by rewrite lookup_insert_eq. Qed.

Lemma grown_refl k f : grown_towards k f f.
Proof. intros j. by left. Qed.

Lemma grown_insert k f : f !! k = None → grown_towards k f (<[k := Dir]> f).
Proof.
  intros Hk j. destruct (decide (k = j)) as [<-|Hne].
  - right. by rewrite lookup_insert_eq.
  - left. by rewrite lookup_insert_ne.
Qed.

Lemma grown_trans k k' f1 f2 f3 :
  k `prefix_of` k' →
  grown_towards k f1 f2 → grown_towards k' f2 f3 → grown_towards k' f1 f3.
Proof.
  intros Hp H12 H23 j. destruct (H12 j) as [E|(E1 & E2 & E3)], (H23 j) as [E'|(E1' & E2' & E3')].
  - left. congruence.
  - right. rewrite <- E. done.
  - right. rewrite E'. split_and!; [done..|]. by etrans.
  - congruence.
Qed.

Lemma grown_is_dir k j f f' :
  grown_towards k f f' → is_dir f j = true → is_dir f' j = true.
Proof.
  intros H Hd. unfold is_dir in *. destruct j; [done|].
  destruct (H (s :: j)) as [->|(E & _)]; [done|]. by rewrite E in Hd.
Qed.

Lemma mkdir_parents_Ok rk f f' :
  mkdir_parents rk f = Ok f' →
  is_dir f' (rev rk) = true ∧ grown_towards (rev rk) f f'.
Proof.
  revert f f'. induction rk as [|a rp IH]; intros f f'.
  - simpl. unfold os_mkdir. simpl. intros [= <-]. split; [done|apply grown_refl].
  - cbn [mkdir_parents].
    destruct (os_mkdir (rev (a :: rp)) f) as [f0|e] eqn:E0.
    { intros [= <-]. apply os_mkdir_Ok in E0 as (-> & Hn & Hne).
      split; [by apply is_dir_insert_Dir | by apply grown_insert]. }
    assert (Hfall : (if is_dir f (rev (a :: rp)) then Ok f else Raise e) = Ok f' →
                    is_dir f' (rev (a :: rp)) = true ∧ grown_towards (rev (a :: rp)) f f').
    { destruct (is_dir f (rev (a :: rp))) eqn:Ed; [|done].
      intros [= <-]. split; [done|apply grown_refl]. }
    destruct e; try exact Hfall.
    destruct (mkdir_parents rp f) as [f1|e1] eqn:E1; [|done].
    apply IH in E1 as [Hd1 Hg1].
    assert (Hp : rev rp `prefix_of` rev (a :: rp)).
    { simpl. by apply prefix_app_r. }
    destruct (os_mkdir (rev (a :: rp)) f1) as [f2|e2] eqn:E2.
    { intros [= <-]. apply os_mkdir_Ok in E2 as (-> & Hn & Hne).
      split; [by apply is_dir_insert_Dir|].
      eapply grown_trans; [exact Hp|exact Hg1|by apply grown_insert]. }
    assert (Hfall2 : (if is_dir f1 (rev (a :: rp)) then Ok f1 else Raise e2) = Ok f' →
                    is_dir f' (rev (a :: rp)) = true ∧ grown_towards (rev (a :: rp)) f f').
    { destruct (is_dir f1 (rev (a :: rp))) eqn:Ed; [|done].
      intros [= <-]. split; [done|].
      eapply grown_trans; [exact Hp|exact Hg1|apply grown_refl]. }
    destruct e2; try exact Hfall2. done.
Qed.

(** [mkdir] on a directory that exists changes nothing. *)
Lemma mkdir_parents_exists rk f :
  is_dir f (rev rk) = true → mkdir_parents rk f = Ok f.
Proof.
  intros Hd. pose proof (is_dir_exists _ _ Hd) as He.
  destruct rk; cbn [mkdir_parents]; unfold os_mkdir; rewrite He, ?Hd; done.
Qed.

Lemma os_mkdir_Raise k f e : os_mkdir k f = Raise e → is_OSError e.
Proof.
  unfold os_mkdir, is_OSError.
  repeat match goal with |- context [if ?b then _ else _] => destruct b end;
    naive_solver.
Qed.

Lemma mkdir_parents_Raise rk f e : mkdir_parents rk f = Raise e → is_OSError e.
Proof.
  revert f e. induction rk as [|a rp IH]; intros f e; cbn [mkdir_parents].
  - destruct (os_mkdir (rev []) f) as [|e0] eqn:E0; [done|].
    pose proof (os_mkdir_Raise _ _ _ E0) as H0.
    destruct e0; try (destruct (is_dir f (rev [])); naive_solver); naive_solver.
  - destruct (os_mkdir (rev (a :: rp)) f) as [|e0] eqn:E0; [done|].
    pose proof (os_mkdir_Raise _ _ _ E0) as H0.
    destruct e0; try (destruct (is_dir f (rev (a :: rp))); naive_solver).
    destruct (mkdir_parents rp f) as [f1|e1] eqn:E1; [|intros [= <-]; eauto].
    destruct (os_mkdir (rev (a :: rp)) f1) as [|e2] eqn:E2; [done|].
    pose proof (os_mkdir_Raise _ _ _ E2) as H2.
    destruct e2; try (destruct (is_dir f1 (rev (a :: rp))); naive_solver); naive_solver.
Qed.

End FileSystemFacts.

(** ** The monad *)

Ltac unfold_M :=
  unfold mbind, M_bind, mret, M_ret, bind, ret, raise, lift, modify, get in *.

Lemma set_fs_id w : set_fs (fs w) w = w.
Proof. by destruct w. Qed.

Lemma set_fs_set_fs f f' w : set_fs f (set_fs f' w) = set_fs f w.
Proof. done. Qed.

Lemma fs_set_fs f w : fs (set_fs f w) = f.
Proof. done. Qed.

(** ** [GeoData] *)

Section GeoDataFacts.

Variable cwd : string.

Lemma Path_mkdir_run p w :
  Path_mkdir cwd p w =
    match mkdir_parents (rev (resolve cwd p)) (fs w) with
    | Ok f => (Ok tt, set_fs f w)
    | Raise e => (Raise e, w)
    end.
Proof. unfold Path_mkdir. unfold_M. by destruct (mkdir_parents _ _). Qed.

Lemma Path_mkdir_exists p w :
  is_dir (fs w) (resolve cwd p) = true → Path_mkdir cwd p w = (Ok tt, w).
Proof.
  intros Hd. rewrite Path_mkdir_run, mkdir_parents_exists, set_fs_id; [done|].
  by rewrite rev_involutive.
Qed.

(** The construction, step by step. *)
Lemma GeoData_new_unfold shp r v output w :
  GeoData_new cwd shp r v output w =
    if negb (truthy r) && negb (truthy v) then (Raise config_error, w)
    else
      match Path_mkdir cwd (root_of cwd output) w with
      | (Raise e, w1) => (Raise e, w1)
      | (Ok _, w1) =>
          match (if truthy r then Path_mkdir cwd (raster_dir cwd output) w1 else (Ok tt, w1)) with
          | (Raise e, w2) => (Raise e, w2)
          | (Ok _, w2) =>
              match (if truthy v then Path_mkdir cwd (vector_dir cwd output) w2 else (Ok tt, w2)) with
              | (Raise e, w3) => (Raise e, w3)
              | (Ok _, w3) => (Ok (job cwd shp r v output), w3)
              end
          end
      end.
Proof.
  unfold GeoData_new, job, raster_dir, vector_dir, root_of.
  destruct (truthy r) eqn:Hr, (truthy v) eqn:Hv; simpl; try done; unfold_M;
    repeat match goal with
      | |- context [Path_mkdir cwd ?p ?w] => destruct (Path_mkdir cwd p w) as [[[]|?] ?]
      end; done.
Qed.

Lemma GeoData_new_Ok shp r v output w g w' :
  GeoData_new cwd shp r v output w = (Ok g, w') →
  ∃ f0 f1 f2,
    mkdir_parents (rev (resolve cwd (root_of cwd output))) (fs w) = Ok f0
    ∧ (if truthy r
       then mkdir_parents (rev (resolve cwd (raster_dir cwd output))) f0 = Ok f1
       else f1 = f0)
    ∧ (if truthy v
       then mkdir_parents (rev (resolve cwd (vector_dir cwd output))) f1 = Ok f2
       else f2 = f1)
    ∧ w' = set_fs f2 w
    ∧ g = job cwd shp r v output
    ∧ (truthy r = true ∨ truthy v = true).
Proof.
  intros H. rewrite GeoData_new_unfold in H.
  destruct (truthy r) eqn:Hr, (truthy v) eqn:Hv; simpl in H; try done;
    repeat (rewrite Path_mkdir_run in H; simpl in H;
            match type of H with
            | context [mkdir_parents ?a ?b] =>
                let E := fresh "E" in
                destruct (mkdir_parents a b) eqn:E; [|done]
            end);
    injection H as <- <-; rewrite ?set_fs_set_fs;
    repeat eexists; eauto.
Qed.

Lemma Path_mkdir_not_ValueError p w msg w' :
  Path_mkdir cwd p w ≠ (Raise (ValueError msg), w').
Proof.
  rewrite Path_mkdir_run. destruct (mkdir_parents _ _) eqn:E; [done|].
  intros [= -> _]. apply mkdir_parents_Raise in E. by destruct E as [|[|]].
Qed.

(** C3.  Constructing a [GeoData] raises the configuration [ValueError]
    exactly when neither [raster_path] nor [vector_path] is supplied
    (both are false for Python's [not]); that failure leaves the world,
    and so the directories, as they were; and a job that is constructed
    has at least one of the two paths set. *)
Theorem GeoData_new_validation shp r v output w :
  ((∃ msg, (GeoData_new cwd shp r v output w).1 = Raise (ValueError msg))
     ↔ truthy r = false ∧ truthy v = false)
  ∧ (∀ msg, (GeoData_new cwd shp r v output w).1 = Raise (ValueError msg) →
       msg = "At least one of raster or vector file should exist."
       ∧ (GeoData_new cwd shp r v output w).2 = w)
  ∧ (∀ g, (GeoData_new cwd shp r v output w).1 = Ok g →
       truthy (raster_path g) = true ∨ truthy (vector_path g) = true).
Proof.
  assert (Hval : ∀ msg, (GeoData_new cwd shp r v output w).1 = Raise (ValueError msg) →
                        truthy r = false ∧ truthy v = false).
  { intros msg. rewrite GeoData_new_unfold.
    destruct (truthy r) eqn:Hr, (truthy v) eqn:Hv; simpl; try done;
      repeat match goal with
        | |- context [Path_mkdir cwd ?p ?w] =>
            let E := fresh "E" in
            destruct (Path_mkdir cwd p w) as [[[]|e] ?] eqn:E;
            [|simpl; intros [= ->]; by apply Path_mkdir_not_ValueError in E]
        end; done. }
  split_and!.
  - split.
    + intros [msg H]. by eapply Hval.
    + intros [Hr Hv]. exists "At least one of raster or vector file should exist.".
      rewrite GeoData_new_unfold, Hr, Hv. done.
  - intros msg H. destruct (Hval _ H) as [Hr Hv]. revert H.
    rewrite GeoData_new_unfold, Hr, Hv. simpl. unfold config_error. intros H. split; [congruence|done].
  - intros g H. destruct (GeoData_new cwd shp r v output w) as [res w'] eqn:E.
    simpl in H. subst res. apply GeoData_new_Ok in E as (?&?&?&?&?&?&?&->&?). done.
Qed.

(** C10.  A path that is [None] or the empty string counts as absent:
    with both paths so, construction raises the configuration
    [ValueError] and changes nothing. *)
Theorem GeoData_new_empty_string shp r v output w :
  (r = None ∨ r = Some EmptyString) →
  (v = None ∨ v = Some EmptyString) →
  GeoData_new cwd shp r v output w = (Raise config_error, w).
Proof.
  intros Hr Hv. rewrite GeoData_new_unfold.
  by destruct Hr as [-> | ->], Hv as [-> | ->].
Qed.

Lemma not_prefix_snoc (k : list string) x : ¬ (k ++ [x]) `prefix_of` k.
Proof. intros H%prefix_length. rewrite length_app in H. simpl in H. lia. Qed.

Lemma not_prefix_snoc_ne (k : list string) x y :
  x ≠ y → ¬ (k ++ [x]) `prefix_of` (k ++ [y]).
Proof.
  intros Hne [t Ht]. rewrite <- app_assoc in Ht.
  apply app_inv_head in Ht. simpl in Ht. congruence.
Qed.

Lemma grown_unchanged k j f f' :
  grown_towards k f f' → ¬ j `prefix_of` k → f' !! j = f !! j.
Proof. intros H Hj. by destruct (H j) as [?|(_ & _ & ?)]. Qed.

(** C7.  When construction succeeds the output root is a directory; the
    [output_raster] subdirectory is a directory if [raster_path] is set
    and is left as it was (not created) otherwise; likewise
    [output_vector] and [vector_path]; and constructing the same job
    again in the resulting world succeeds and changes nothing. *)
Theorem GeoData_new_directories shp r v output w g w' :
  GeoData_new cwd shp r v output w = (Ok g, w') →
  is_dir (fs w') (resolve cwd (root_of cwd output)) = true
  ∧ (if truthy r
     then is_dir (fs w') (resolve cwd (raster_dir cwd output)) = true
     else fs w' !! resolve cwd (raster_dir cwd output)
          = fs w !! resolve cwd (raster_dir cwd output))
  ∧ (if truthy v
     then is_dir (fs w') (resolve cwd (vector_dir cwd output)) = true
     else fs w' !! resolve cwd (vector_dir cwd output)
          = fs w !! resolve cwd (vector_dir cwd output))
  ∧ GeoData_new cwd shp r v output w' = (Ok g, w').
Proof.
  intros (f0 & f1 & f2 & E0 & E1 & E2 & -> & -> & Hrv)%GeoData_new_Ok.
  rewrite fs_set_fs.
  apply mkdir_parents_Ok in E0 as [D0 G0]. rewrite rev_involutive in D0, G0.
  assert (Hr : resolve cwd (raster_dir cwd output)
               = resolve cwd (root_of cwd output) ++ ["output_raster"])
    by apply resolve_join, is_name_output_raster.
  assert (Hv : resolve cwd (vector_dir cwd output)
               = resolve cwd (root_of cwd output) ++ ["output_vector"])
    by apply resolve_join, is_name_output_vector.
  set (root := resolve cwd (root_of cwd output)) in *.
  assert (D1 : is_dir f1 root = true ∧
               if truthy r then is_dir f1 (resolve cwd (raster_dir cwd output)) = true
                                ∧ grown_towards (resolve cwd (raster_dir cwd output)) f0 f1
               else f1 = f0).
  { destruct (truthy r); [|by subst].
    apply mkdir_parents_Ok in E1 as [D1 G1]. rewrite rev_involutive in D1, G1.
    split; [by eapply grown_is_dir|done]. }
  destruct D1 as [D1 R1].
  assert (D2 : is_dir f2 root = true ∧
               (∀ j, is_dir f1 j = true → is_dir f2 j = true) ∧
               if truthy v then is_dir f2 (resolve cwd (vector_dir cwd output)) = true
                                ∧ grown_towards (resolve cwd (vector_dir cwd output)) f1 f2
               else f2 = f1).
  { destruct (truthy v); [|by subst].
    apply mkdir_parents_Ok in E2 as [D2 G2]. rewrite rev_involutive in D2, G2.
    split_and!; [by eapply grown_is_dir|intros j; by eapply grown_is_dir|done..]. }
  destruct D2 as (D2 & Mono & R2).
  assert (Dr : truthy r = true → is_dir f2 (resolve cwd (raster_dir cwd output)) = true).
  { intros Er. rewrite Er in R1. apply Mono, R1. }
  assert (Dv : truthy v = true → is_dir f2 (resolve cwd (vector_dir cwd output)) = true).
  { intros Ev. rewrite Ev in R2. apply R2. }
  split_and!.
  - done.
  - destruct (truthy r) eqn:Er; [by apply Dr|]. subst f1.
    transitivity (f0 !! resolve cwd (raster_dir cwd output)).
    + destruct (truthy v); [|by subst]. destruct R2 as [_ G2].
      eapply grown_unchanged; [exact G2|]. rewrite Hr, Hv.
      by apply not_prefix_snoc_ne.
    + eapply grown_unchanged; [exact G0|]. rewrite Hr. apply not_prefix_snoc.
  - destruct (truthy v) eqn:Ev; [by apply Dv|]. subst f2.
    transitivity (f0 !! resolve cwd (vector_dir cwd output)).
    + destruct (truthy r); [|by subst]. destruct R1 as [_ G1].
      eapply grown_unchanged; [exact G1|]. rewrite Hr, Hv.
      by apply not_prefix_snoc_ne.
    + eapply grown_unchanged; [exact G0|]. rewrite Hv. apply not_prefix_snoc.
  - rewrite GeoData_new_unfold.
    replace (negb (truthy r) && negb (truthy v)) with false
      by (by destruct Hrv as [-> | ->], (truthy r), (truthy v)).
    rewrite Path_mkdir_exists by done.
    destruct (truthy r) eqn:Er, (truthy v) eqn:Ev;
      rewrite ?Path_mkdir_exists; auto.
Qed.

End GeoDataFacts.

(** ** Running the monad *)

Lemma bind_run {A B} (m : M A) (k : A → M B) w :
  (m ≫= k) w = match m w with
               | (Ok a, w') => k a w'
               | (Raise e, w') => (Raise e, w')
               end.
Proof. reflexivity. Qed.

Lemma bind_Ok {A B} (m : M A) (k : A → M B) w a w' :
  m w = (Ok a, w') → (m ≫= k) w = k a w'.
Proof. intros H. by rewrite bind_run, H. Qed.

Lemma bind_Raise {A B} (m : M A) (k : A → M B) w e w' :
  m w = (Raise e, w') → (m ≫= k) w = (Raise e, w').
Proof. intros H. by rewrite bind_run, H. Qed.

#[global] Arguments rasterio_open : simpl never.
#[global] Arguments rasterio_open_w : simpl never.
#[global] Arguments dataset_write : simpl never.
#[global] Arguments dataset_close : simpl never.
#[global] Arguments with_open_w : simpl never.
#[global] Arguments gpd_read_file : simpl never.
#[global] Arguments to_crs : simpl never.
#[global] Arguments mask : simpl never.
#[global] Arguments merge : simpl never.
#[global] Arguments gpd_overlay : simpl never.
#[global] Arguments to_file : simpl never.
#[global] Arguments getattr : simpl never.
#[global] Arguments update_meta : simpl never.
#[global] Arguments resolve : simpl never.
#[global] Arguments PosixPath.join : simpl never.

(** ** Attributes of a job *)

Lemma getattr_shapefile_path g w :
  getattr g "shapefile_path" w = (Ok (Some (shapefile_path g)), w).
Proof. unfold getattr, GeoData_dict. by destruct (output_raster_path g), (output_vector_path g). Qed.

Lemma getattr_raster_path g w :
  getattr g "raster_path" w = (Ok (raster_path g), w).
Proof. unfold getattr, GeoData_dict. by destruct (output_raster_path g), (output_vector_path g). Qed.

Lemma getattr_vector_path g w :
  getattr g "vector_path" w = (Ok (vector_path g), w).
Proof. unfold getattr, GeoData_dict. by destruct (output_raster_path g), (output_vector_path g). Qed.

Lemma getattr_output_raster_path g w :
  getattr g "output_raster_path" w =
    match output_raster_path g with
    | Some p => (Ok (Some p), w)
    | None => (Raise (AttributeError "output_raster_path"), w)
    end.
Proof. unfold getattr, GeoData_dict. by destruct (output_raster_path g), (output_vector_path g). Qed.

Lemma getattr_output_vector_path g w :
  getattr g "output_vector_path" w =
    match output_vector_path g with
    | Some p => (Ok (Some p), w)
    | None => (Raise (AttributeError "output_vector_path"), w)
    end.
Proof. unfold getattr, GeoData_dict. by destruct (output_raster_path g), (output_vector_path g). Qed.

(** No instance carries an attribute [get_crs]. *)
Lemma GeoData_no_get_crs g : GeoData_dict g !! "get_crs" = None.
Proof. unfold GeoData_dict. by destruct (output_raster_path g), (output_vector_path g). Qed.

Lemma getattr_get_crs g w :
  getattr g "get_crs" w = (Raise (AttributeError "get_crs"), w).
Proof. unfold getattr. by rewrite GeoData_no_get_crs. Qed.

(** ** The metadata update *)



(** ** Library calls, run *)

Section RunFacts.

Variable L : Lib.
Variable cwd : string.

Lemma log_run e w : modify (log e) w = (Ok tt, log e w).
Proof. reflexivity. Qed.

Lemma lift_run {A} (r : result A) w : lift r w = (r, w).
Proof. reflexivity. Qed.

Lemma rasterio_open_run p w :
  rasterio_open cwd (Some p) w =
    match fs w !! resolve cwd p with
    | Some (RasterFile meta px) =>
        (Ok {| ds_handle := next_handle w; ds_mode := ReadMode;
               ds_name := resolve cwd p; ds_meta := meta; ds_pixels := px |},
         opened ReadMode (log (EvOpenRead (Some p)) w))
    | _ => (Raise RasterioIOError, log (EvOpenRead (Some p)) w)
    end.
Proof.
  unfold rasterio_open. rewrite bind_run, log_run. unfold_M. simpl.
  by destruct (fs w !! resolve cwd p) as [[]|].
Qed.

Lemma rasterio_open_None w :
  rasterio_open cwd None w = (Raise TypeError, log (EvOpenRead None) w).
Proof. reflexivity. Qed.

Lemma gpd_read_file_run p w :
  gpd_read_file cwd (Some p) w =
    match fs w !! resolve cwd p with
    | Some (VectorFile l) => (Ok l, log (EvReadFile p) w)
    | _ => (Raise DataSourceError, log (EvReadFile p) w)
    end.
Proof.
  unfold gpd_read_file. rewrite bind_run, log_run. unfold_M. simpl.
  by destruct (fs w !! resolve cwd p) as [[]|].
Qed.

Lemma to_crs_run frame crs w :
  to_crs L frame crs w = (lib_to_crs L frame crs, log (EvToCrs frame crs) w).
Proof. unfold to_crs. rewrite bind_run, log_run. reflexivity. Qed.

Lemma mask_run ds shapes crop w :
  mask L ds shapes crop w =
    (lib_mask L (ds_meta ds) (ds_pixels ds) shapes crop,
     log (EvMask (ds_handle ds) shapes crop) w).
Proof. unfold mask. rewrite bind_run, log_run. reflexivity. Qed.

Lemma gpd_overlay_str df1 s how w :
  gpd_overlay L df1 (PyStr s) how w =
    (Raise (AttributeError "crs"), log (EvOverlay df1 (PyStr s) how) w).
Proof. reflexivity. Qed.

(** C4.  [get_crs] is not an attribute of any job, so for every
    [VectorCropper] the reprojection step of [execute] raises
    [AttributeError] before any library call: the world, and with it
    every file, is as it was. *)
Theorem VectorCropper_execute_raises (self : VectorCropper) w :
  GeoData_dict (vc_geo_data self) !! "get_crs" = None
  ∧ VectorCropper_transform_crs L self w = (Raise (AttributeError "get_crs"), w)
  ∧ VectorCropper_execute L cwd self w = (Raise (AttributeError "get_crs"), w).
Proof.
  assert (H : VectorCropper_transform_crs L self w = (Raise (AttributeError "get_crs"), w)).
  { unfold VectorCropper_transform_crs. by rewrite bind_run, getattr_get_crs. }
  split_and!; [apply GeoData_no_get_crs|done|].
  unfold VectorCropper_execute, VectorCropper_crop. by rewrite !bind_run, H.
Qed.

(** *** [BothCropper] *)

Lemma BothCropper_crop_run (self : BothCropper) w :
  BothCropper_crop L self w =
    match lib_to_crs L (bc_shapefile self) (ds_crs (bc_raster self)) with
    | Raise e => (Raise e, log (EvToCrs (bc_shapefile self) (ds_crs (bc_raster self))) w)
    | Ok reprojected =>
        let w1 := log (EvMask (ds_handle (bc_raster self)) (layer_geometry reprojected) true)
                    (log (EvToCrs (bc_shapefile self) (ds_crs (bc_raster self))) w) in
        match lib_mask L (ds_meta (bc_raster self)) (ds_pixels (bc_raster self))
                (layer_geometry reprojected) true with
        | Raise e => (Raise e, w1)
        | Ok _ =>
            (Raise (AttributeError "crs"),
             log (EvOverlay reprojected (PyStr (vector_path (bc_geo_data self))) "intersection") w1)
        end
    end.
Proof.
  unfold BothCropper_crop, BothCropper_transform_crs.
  rewrite bind_run, to_crs_run.
  destruct (lib_to_crs _ _ _) as [reprojected|e]; [|done].
  rewrite bind_run, mask_run.
  destruct (lib_mask _ _ _ _ _) as [[a t]|e]; [|done].
  by rewrite bind_run, getattr_vector_path, bind_run, gpd_overlay_str.
Qed.

(** C6, what the code does.  [BothCropper.execute] reprojects the
    shapefile once, to the raster's CRS, masks the raster with the
    reprojected geometry and hands the same reprojected frame to
    [gpd.overlay]; but the second argument of the overlay is the string
    [vector_path], not a loaded layer, so the overlay raises and
    [execute] ends there: it never returns normally and writes no
    file. *)
Theorem BothCropper_execute_never_writes (self : BothCropper) w :
  (∃ e, (BothCropper_execute L cwd self w).1 = Raise e)
  ∧ fs (BothCropper_execute L cwd self w).2 = fs w
  ∧ (∀ reprojected cropped,
       lib_to_crs L (bc_shapefile self) (ds_crs (bc_raster self)) = Ok reprojected →
       lib_mask L (ds_meta (bc_raster self)) (ds_pixels (bc_raster self))
         (layer_geometry reprojected) true = Ok cropped →
       BothCropper_execute L cwd self w =
         (Raise (AttributeError "crs"),
          {| fs := fs w; handles := handles w; next_handle := next_handle w;
             trace := trace w ++
               [EvToCrs (bc_shapefile self) (ds_crs (bc_raster self));
                EvMask (ds_handle (bc_raster self)) (layer_geometry reprojected) true;
                EvOverlay reprojected (PyStr (vector_path (bc_geo_data self)))
                  "intersection"] |})).
Proof.
  unfold BothCropper_execute. rewrite bind_run, BothCropper_crop_run.
  split_and!.
  - destruct (lib_to_crs _ _ _); [|by eexists].
    simpl. destruct (lib_mask _ _ _ _ _); by eexists.
  - destruct (lib_to_crs _ _ _); [|done].
    simpl. by destruct (lib_mask _ _ _ _ _).
  - intros reprojected cropped -> . simpl. intros ->.
    unfold log. simpl. by rewrite <- !app_assoc.
Qed.

(** *** [Application] *)

(** C5, as amended.  [Application.execute] runs [execute] of the cropper
    it was built with, whichever variant that is, and does nothing else:
    the outcome is that of the cropper and does not depend on the job
    stored next to it. *)
Theorem Application_execute_delegates (self : Application) w :
  Application_execute L cwd self w = Cropper_execute L cwd (app_cropper self) w
  ∧ (∀ g, Application_execute L cwd
            {| app_geo_data := g; app_cropper := app_cropper self |} w
          = Application_execute L cwd self w)
  ∧ match app_cropper self with
    | IsRasterCropper c => Application_execute L cwd self w = RasterCropper_execute L cwd c w
    | IsVectorCropper c => Application_execute L cwd self w = VectorCropper_execute L cwd c w
    | IsBothCropper c => Application_execute L cwd self w = BothCropper_execute L cwd c w
    end.
Proof.
  assert (H : Application_execute L cwd self w = Cropper_execute L cwd (app_cropper self) w).
  { unfold Application_execute. rewrite bind_run.
    by destruct (Cropper_execute L cwd (app_cropper self) w) as [[[]|e] w']. }
  split_and!; [done|done|]. rewrite H. by destruct (app_cropper self).
Qed.

End RunFacts.

Section WriteFacts.

Variable L : Lib.
Variable cwd : string.

Lemma rasterio_open_w_run path meta w :
  rasterio_open_w L cwd path meta w =
    let k := resolve cwd path in
    let w1 := log (EvOpenWrite path meta) w in
    if creatable (fs w) k then
      match lib_create L meta with
      | Raise e => (Raise e, w1)
      | Ok _ =>
          (Ok {| ds_handle := next_handle w; ds_mode := WriteMode; ds_name := k;
                 ds_meta := meta; ds_pixels := None |},
           opened WriteMode (set_fs (<[k := RasterFile meta None]> (fs w)) w1))
      end
    else (Raise RasterioIOError, w1).
Proof.
  unfold rasterio_open_w, creatable. rewrite bind_run, log_run. unfold_M. simpl.
  destruct (bool_decide _ || _ || _); simpl; [done|].
  by destruct (lib_create L meta).
Qed.

Lemma dataset_write_run dst a w :
  dataset_write L dst a w =
    let w1 := log (EvWrite (ds_handle dst) a) w in
    match lib_write L (ds_meta dst) a with
    | Raise e => (Raise e, w1)
    | Ok _ => (Ok tt, set_fs (<[ds_name dst := RasterFile (ds_meta dst) (Some a)]> (fs w)) w1)
    end.
Proof.
  unfold dataset_write. rewrite bind_run, log_run. unfold_M. simpl.
  by destruct (lib_write L (ds_meta dst) a).
Qed.

Lemma dataset_close_run ds w :
  dataset_close ds w = (Ok tt, closed (ds_handle ds) w).
Proof. reflexivity. Qed.

Lemma with_open_w_run {A} path meta (body : Dataset → M A) w :
  with_open_w L cwd path meta body w =
    match rasterio_open_w L cwd path meta w with
    | (Raise e, w1) => (Raise e, w1)
    | (Ok dst, w1) => ((body dst w1).1, closed (ds_handle dst) (body dst w1).2)
    end.
Proof.
  unfold with_open_w. rewrite bind_run.
  destruct (rasterio_open_w L cwd path meta w) as [[dst|e] w1]; [|done].
  unfold finally. by destruct (body dst w1) as [res w2].
Qed.

(** Writing an array into a new dataset, when every step succeeds. *)
Lemma with_open_w_write_Ok path meta a w :
  creatable (fs w) (resolve cwd path) = true →
  lib_create L meta = Ok tt →
  lib_write L meta a = Ok tt →
  with_open_w L cwd path meta (λ dst, dataset_write L dst a) w =
    (Ok tt,
     {| fs := <[resolve cwd path := RasterFile meta (Some a)]> (fs w);
        handles := filter (λ x, x.1 ≠ next_handle w)
                     (handles w ++ [(next_handle w, WriteMode)]);
        next_handle := S (next_handle w);
        trace := trace w ++ [EvOpenWrite path meta; EvWrite (next_handle w) a;
                             EvClose (next_handle w)] |}).
Proof.
  intros Hc Hcr Hw. rewrite with_open_w_run, rasterio_open_w_run. simpl.
  rewrite Hc, Hcr, dataset_write_run. simpl. rewrite Hw. simpl.
  unfold closed, set_fs, log. simpl. rewrite insert_insert_eq, <- !app_assoc. done.
Qed.

Lemma creatable_in_dir f dir name :
  is_dir f dir = true → is_dir f (dir ++ [name]) = false →
  creatable f (dir ++ [name]) = true.
Proof.
  intros Hd Hn. unfold creatable, parent. rewrite removelast_last, Hd, Hn.
  rewrite bool_decide_eq_false_2; [done|]. by destruct dir.
Qed.

Lemma is_name_raster_cropped : is_name "raster_cropped.tif".
Proof. repeat split; done. Qed.


End WriteFacts.

(** ** [merge_raster] *)

Section MergeFacts.

Variable L : Lib.
Variable cwd : string.

Lemma rasterio_open_at p w :
  rasterio_open cwd (Some p) w =
    match raster_at cwd (fs w) p with
    | Some c =>
        (Ok {| ds_handle := next_handle w; ds_mode := ReadMode;
               ds_name := resolve cwd p; ds_meta := c.1; ds_pixels := c.2 |},
         opened ReadMode (log (EvOpenRead (Some p)) w))
    | None => (Raise RasterioIOError, log (EvOpenRead (Some p)) w)
    end.
Proof.
  rewrite rasterio_open_run. unfold raster_at.
  by destruct (fs w !! resolve cwd p) as [[]|].
Qed.

Lemma open_all_Ok paths contents w :
  Forall2 (λ p c, raster_at cwd (fs w) p = Some c) paths contents →
  open_all cwd paths w =
    (Ok (opened_datasets cwd (next_handle w) paths contents),
     {| fs := fs w;
        handles := handles w ++ read_handles (next_handle w) (length paths);
        next_handle := next_handle w + length paths;
        trace := trace w ++ ((λ p, EvOpenRead (Some p)) <$> paths) |}).
Proof.
  intros H. revert w H. revert contents.
  induction paths as [|p ps IH]; intros contents w H.
  - apply Forall2_nil_inv_l in H as ->. simpl. unfold_M. unfold read_handles. simpl.
    rewrite !app_nil_r, Nat.add_0_r. by destruct w.
  - apply Forall2_cons_inv_l in H as (c & cs & Hc & Hcs & ->).
    cbn [open_all]. rewrite bind_run, rasterio_open_at, Hc.
    rewrite bind_run, (IH cs); [|done]. simpl. unfold_M. unfold read_handles. simpl.
    rewrite <- !app_assoc. simpl. do 3 f_equal. lia.
Qed.

Lemma open_all_Raise paths w :
  Exists (λ p, raster_at cwd (fs w) p = None) paths →
  ∃ w', open_all cwd paths w = (Raise RasterioIOError, w')
        ∧ fs w' = fs w
        ∧ ∃ opened_paths, trace w' = trace w ++ ((λ p, EvOpenRead (Some p)) <$> opened_paths).
Proof.
  revert w. induction paths as [|p ps IH]; intros w H.
  - by apply Exists_nil in H.
  - cbn [open_all]. rewrite bind_run, rasterio_open_at.
    destruct (raster_at cwd (fs w) p) as [c|] eqn:Hc.
    + apply Exists_cons in H as [H|H]; [congruence|].
      destruct (IH (opened ReadMode (log (EvOpenRead (Some p)) w)) H)
        as (w' & Hrun & Hfs & tl & Htr).
      exists w'. rewrite bind_run, Hrun. split_and!; [done|done|].
      exists (p :: tl). rewrite Htr. simpl. by rewrite <- app_assoc.
    + eexists. split_and!; [done|done|]. by exists [p].
Qed.

Lemma opened_datasets_contents n paths contents :
  length paths = length contents →
  (λ d, (ds_meta d, ds_pixels d)) <$> opened_datasets cwd n paths contents = contents.
Proof.
  revert n contents. induction paths as [|p ps IH]; intros n [|[m px] cs] Hl;
    simplify_eq/=; [done|]. f_equal. by apply IH.
Qed.

Lemma opened_datasets_handles n paths contents :
  length paths = length contents →
  ds_handle <$> opened_datasets cwd n paths contents = seq n (length paths).
Proof.
  revert n contents. induction paths as [|p ps IH]; intros n [|c cs] Hl;
    simplify_eq/=; [done|]. f_equal. by apply IH.
Qed.

Lemma merge_run datasets w :
  merge L datasets w =
    (match datasets with
     | [] => Raise IndexError
     | _ => lib_merge L ((λ d, (ds_meta d, ds_pixels d)) <$> datasets)
     end, log (EvMerge (ds_handle <$> datasets)) w).
Proof. unfold merge. rewrite bind_run, log_run. by destruct datasets. Qed.


(** C8.  With no input path [merge_raster] raises [IndexError]; with a
    path that does not open it raises the library's open error; in both
    cases no file is opened for writing and the file system is as it
    was. *)
Theorem merge_raster_failures paths output w :
  (paths = [] ∨ Exists (λ p, raster_at cwd (fs w) p = None) paths) →
  ∃ e w',
    merge_raster L cwd paths output w = (Raise e, w')
    ∧ fs w' = fs w
    ∧ (∃ calls, trace w' = trace w ++ calls
                ∧ ∀ path meta, EvOpenWrite path meta ∉ calls)
    ∧ (paths = [] → e = IndexError)
    ∧ (Exists (λ p, raster_at cwd (fs w) p = None) paths → e = RasterioIOError).
Proof.
  intros [-> | Hbad].
  - exists IndexError. eexists. split_and!; [reflexivity|done| |done|].
    + exists [EvMerge []]. split; [done|]. intros path meta. by rewrite list_elem_of_singleton.
    + by intros ?%Exists_nil.
  - destruct (open_all_Raise _ _ Hbad) as (w' & Hrun & Hfs & tl & Htr).
    exists RasterioIOError, w'. unfold merge_raster. rewrite bind_run, Hrun.
    split_and!; [done|done| |by intros ->; apply Exists_nil in Hbad|done].
    eexists. split; [exact Htr|]. intros path meta.
    rewrite list_elem_of_fmap. by intros (p & ? & _).
Qed.

End MergeFacts.

(** ** Open handles *)

Section HandleFacts.

Variable L : Lib.
Variable cwd : string.

Lemma keeps_fresh {A} (m : M A) w :
  keeps_handles m → handles_fresh w → handles_fresh (m w).2.
Proof.
  intros Hm Hw. destruct (Hm w Hw) as [Hh Hn]. unfold handles_fresh in *.
  rewrite Hh. eapply Forall_impl; [exact Hw|]. simpl. lia.
Qed.

Lemma keeps_bind {A B} (m : M A) (k : A → M B) :
  keeps_handles m → (∀ a, keeps_handles (k a)) → keeps_handles (m ≫= k).
Proof.
  intros Hm Hk w Hw. rewrite bind_run.
  pose proof (Hm w Hw) as [Hh Hn]. pose proof (keeps_fresh m w Hm Hw) as Hf.
  destruct (m w) as [[a|e] w1]; simpl in *; [|done].
  destruct (Hk a w1 Hf) as [Hh' Hn']. split; [congruence|lia].
Qed.

Lemma keeps_pure {A} (m : M A) :
  (∀ w, handles (m w).2 = handles w ∧ next_handle (m w).2 = next_handle w) →
  keeps_handles m.
Proof. intros H w _. destruct (H w) as [-> ->]. done. Qed.


Lemma keeps_raise {A} e : keeps_handles (raise e : M A).
Proof. by apply keeps_pure. Qed.

Lemma keeps_getattr g name : keeps_handles (getattr g name).
Proof. apply keeps_pure. intros w. unfold getattr. by destruct (_ !! _). Qed.



Lemma keeps_gpd_read_file p : keeps_handles (gpd_read_file cwd p).
Proof.
  apply keeps_pure. intros w. destruct p as [p|]; [|done].
  rewrite gpd_read_file_run. by destruct (fs w !! resolve cwd p) as [[]|].
Qed.

Lemma keeps_to_crs frame crs : keeps_handles (to_crs L frame crs).
Proof. apply keeps_pure. intros w. by rewrite to_crs_run. Qed.

Lemma keeps_mask ds shapes crop : keeps_handles (mask L ds shapes crop).
Proof. apply keeps_pure. intros w. by rewrite mask_run. Qed.



Lemma filter_fresh (l : list (nat * Mode)) n m :
  Forall (λ h, h.1 < n) l → filter (λ x, x.1 ≠ n) (l ++ [(n, m)]) = l.
Proof.
  intros Hl. rewrite filter_app, filter_cons, decide_False, filter_nil, app_nil_r
    by (simpl; congruence).
  induction Hl as [|h l Hh Hl IH]; [done|].
  rewrite filter_cons, decide_True, IH by lia. done.
Qed.





Lemma read_handles_fresh w n :
  handles_fresh w →
  Forall (λ h, h.1 < next_handle w + n) (handles w ++ read_handles (next_handle w) n).
Proof.
  intros Hw. apply Forall_app. split.
  - eapply Forall_impl; [exact Hw|]. simpl. lia.
  - unfold read_handles. apply Forall_fmap, Forall_seq. simpl. lia.
Qed.


End HandleFacts.

(** ** More on [GeoData] *)

Section GeoDataMore.

Variable cwd : string.


Lemma grown_within_refl k1 k2 f : grown_within k1 k2 f f.
Proof. intros j. by left. Qed.

Lemma grown_within_trans k1 k2 f1 f2 f3 :
  grown_within k1 k2 f1 f2 → grown_within k1 k2 f2 f3 → grown_within k1 k2 f1 f3.
Proof.
  intros H12 H23 j.
  destruct (H12 j) as [E|(E1 & E2 & E3)], (H23 j) as [E'|(E1' & E2' & E3')].
  - left. congruence.
  - right. rewrite <- E. done.
  - right. rewrite E'. done.
  - congruence.
Qed.

Lemma grown_towards_within_l k k1 k2 f f' :
  k `prefix_of` k1 → grown_towards k f f' → grown_within k1 k2 f f'.
Proof.
  intros Hk H j. destruct (H j) as [?|(? & ? & ?)]; [by left|right].
  split_and!; [done..|]. left. by etrans.
Qed.

Lemma grown_towards_within_r k k1 k2 f f' :
  k `prefix_of` k2 → grown_towards k f f' → grown_within k1 k2 f f'.
Proof.
  intros Hk H j. destruct (H j) as [?|(? & ? & ?)]; [by left|right].
  split_and!; [done..|]. right. by etrans.
Qed.

(** One [mkdir], whatever its outcome. *)
Lemma Path_mkdir_grown p w :
  grown_towards (resolve cwd p) (fs w) (fs (Path_mkdir cwd p w).2)
  ∧ handles (Path_mkdir cwd p w).2 = handles w
  ∧ next_handle (Path_mkdir cwd p w).2 = next_handle w
  ∧ trace (Path_mkdir cwd p w).2 = trace w.
Proof.
  rewrite Path_mkdir_run.
  destruct (mkdir_parents _ _) as [f|e] eqn:E; simpl; [|split; [apply grown_refl|done]].
  apply mkdir_parents_Ok in E as [_ G]. by rewrite rev_involutive in G.
Qed.

Lemma raster_dir_resolve output :
  resolve cwd (raster_dir cwd output) = resolve cwd (root_of cwd output) ++ ["output_raster"].
Proof. apply resolve_join, is_name_output_raster. Qed.

Lemma vector_dir_resolve output :
  resolve cwd (vector_dir cwd output) = resolve cwd (root_of cwd output) ++ ["output_vector"].
Proof. apply resolve_join, is_name_output_vector. Qed.

(** What construction changes, whatever its outcome. *)
Lemma GeoData_new_changes shp r v output w :
  grown_within (resolve cwd (raster_dir cwd output)) (resolve cwd (vector_dir cwd output))
    (fs w) (fs (GeoData_new cwd shp r v output w).2)
  ∧ handles (GeoData_new cwd shp r v output w).2 = handles w
  ∧ next_handle (GeoData_new cwd shp r v output w).2 = next_handle w
  ∧ trace (GeoData_new cwd shp r v output w).2 = trace w.
Proof.
  set (k1 := resolve cwd (raster_dir cwd output)).
  set (k2 := resolve cwd (vector_dir cwd output)).
  assert (P0 : resolve cwd (root_of cwd output) `prefix_of` k1).
  { unfold k1. rewrite raster_dir_resolve. by apply prefix_app_r. }
  rewrite GeoData_new_unfold.
  destruct (negb (truthy r) && negb (truthy v)); [split; [apply grown_within_refl|done]|].
  destruct (Path_mkdir_grown (root_of cwd output) w) as (G0 & H0 & N0 & T0).
  destruct (Path_mkdir cwd (root_of cwd output) w) as [[[]|e0] w1]; simpl in *;
    [|split; [exact (grown_towards_within_l _ k1 k2 _ _ P0 G0)|done]].
  assert (S1 : ∃ res w2,
            (if truthy r then Path_mkdir cwd (raster_dir cwd output) w1 else (Ok (), w1))
            = (res, w2)
            ∧ grown_within k1 k2 (fs w) (fs w2) ∧ handles w2 = handles w
            ∧ next_handle w2 = next_handle w ∧ trace w2 = trace w).
  { destruct (truthy r).
    - destruct (Path_mkdir_grown (raster_dir cwd output) w1) as (G1 & H1 & N1 & T1).
      destruct (Path_mkdir cwd (raster_dir cwd output) w1) as [res w2]; simpl in *.
      exists res, w2. split_and!; [done| |congruence..].
      eapply grown_within_trans; [exact (grown_towards_within_l _ k1 k2 _ _ P0 G0)|].
      exact (grown_towards_within_l _ k1 k2 _ _ (reflexivity _) G1).
    - exists (Ok ()), w1. split_and!; [done| |done..].
      exact (grown_towards_within_l _ k1 k2 _ _ P0 G0). }
  destruct S1 as (res1 & w2 & -> & G1 & H1 & N1 & T1).
  destruct res1 as [[]|e1]; [|done].
  destruct (truthy v).
  - destruct (Path_mkdir_grown (vector_dir cwd output) w2) as (G2 & H2 & N2 & T2).
    assert (G2' : grown_within k1 k2 (fs w) (fs (Path_mkdir cwd (vector_dir cwd output) w2).2)).
    { eapply grown_within_trans; [exact G1|].
      exact (grown_towards_within_r _ k1 k2 _ _ (reflexivity _) G2). }
    destruct (Path_mkdir cwd (vector_dir cwd output) w2) as [[[]|e2] w3]; simpl in *;
      (split_and!; [exact G2'|congruence..]).
  - done.
Qed.

(** X1.  Whatever its outcome, constructing a [GeoData] changes the file
    system only by creating directories, each at or above the job's
    [output_raster] or [output_vector] directory: no existing entry is
    replaced or removed, no file is created; and no dataset is opened and
    no library is called. *)
Theorem GeoData_new_only_creates_directories shp r v output w :
  grown_within (resolve cwd (raster_dir cwd output)) (resolve cwd (vector_dir cwd output))
    (fs w) (fs (GeoData_new cwd shp r v output w).2)
  ∧ (∀ j n, fs w !! j = Some n → fs (GeoData_new cwd shp r v output w).2 !! j = Some n)
  ∧ (∀ j meta px, fs (GeoData_new cwd shp r v output w).2 !! j = Some (RasterFile meta px) →
       fs w !! j = Some (RasterFile meta px))
  ∧ (∀ j l, fs (GeoData_new cwd shp r v output w).2 !! j = Some (VectorFile l) →
       fs w !! j = Some (VectorFile l))
  ∧ handles (GeoData_new cwd shp r v output w).2 = handles w
  ∧ next_handle (GeoData_new cwd shp r v output w).2 = next_handle w
  ∧ trace (GeoData_new cwd shp r v output w).2 = trace w.
Proof.
  destruct (GeoData_new_changes shp r v output w) as (G & H & N & T).
  split_and!; try done.
  - intros j n Hj. destruct (G j) as [->|(E & _)]; [done|congruence].
  - intros j meta px Hj. destruct (G j) as [<-|(_ & E & _)]; [done|congruence].
  - intros j l Hj. destruct (G j) as [<-|(_ & E & _)]; [done|congruence].
Qed.

(** The directories a successful construction leaves. *)
Lemma GeoData_new_dirs shp r v output w g w' :
  GeoData_new cwd shp r v output w = (Ok g, w') →
  g = job cwd shp r v output
  ∧ is_dir (fs w') (resolve cwd (root_of cwd output)) = true
  ∧ (truthy r = true → is_dir (fs w') (resolve cwd (raster_dir cwd output)) = true)
  ∧ (truthy v = true → is_dir (fs w') (resolve cwd (vector_dir cwd output)) = true).
Proof.
  intros (f0 & f1 & f2 & E0 & E1 & E2 & -> & -> & Hrv)%GeoData_new_Ok.
  rewrite fs_set_fs.
  apply mkdir_parents_Ok in E0 as [D0 G0]. rewrite rev_involutive in D0, G0.
  assert (M1 : ∀ j, is_dir f0 j = true → is_dir f1 j = true).
  { destruct (truthy r); [|by subst]. apply mkdir_parents_Ok in E1 as [_ G1].
    intros j. by eapply grown_is_dir. }
  assert (M2 : ∀ j, is_dir f1 j = true → is_dir f2 j = true).
  { destruct (truthy v); [|by subst]. apply mkdir_parents_Ok in E2 as [_ G2].
    intros j. by eapply grown_is_dir. }
  split_and!; [done|by apply M2, M1| |].
  - intros Hr. rewrite Hr in E1. apply mkdir_parents_Ok in E1 as [D1 _].
    rewrite rev_involutive in D1. by apply M2.
  - intros Hv. rewrite Hv in E2. apply mkdir_parents_Ok in E2 as [D2 _].
    by rewrite rev_involutive in D2.
Qed.

End GeoDataMore.

Section GeoDataEdges.

Variable cwd : string.

Lemma exists_at_None f k : k ≠ [] → f !! k = None → exists_at f k = false.
Proof.
  intros Hk Hn. unfold exists_at. destruct k; [done|].
  apply bool_decide_eq_false. rewrite Hn. by intros [? ?].
Qed.

Lemma exists_at_Some f k n : f !! k = Some n → exists_at f k = true.
Proof.
  intros Hn. unfold exists_at. destruct k; [done|].
  apply bool_decide_eq_true. by rewrite Hn.
Qed.

Lemma is_dir_file f k n : k ≠ [] → f !! k = Some n → n ≠ Dir → is_dir f k = false.
Proof. intros Hk Hn Hd. unfold is_dir. destruct k; [done|]. rewrite Hn. by destruct n. Qed.

Lemma mkdir_parents_occupied rk f :
  exists_at f (rev rk) = true → is_dir f (rev rk) = false →
  mkdir_parents rk f = Raise FileExistsError.
Proof.
  intros He Hd. destruct rk; cbn [mkdir_parents]; unfold os_mkdir; by rewrite He, ?Hd.
Qed.

Lemma mkdir_parents_new rk f :
  rev rk ≠ [] → f !! rev rk = None → is_dir f (parent (rev rk)) = true →
  mkdir_parents rk f = Ok (<[rev rk := Dir]> f).
Proof.
  intros Hk Hn Hp. pose proof (exists_at_None f _ Hk Hn) as He.
  destruct rk; cbn [mkdir_parents]; unfold os_mkdir; by rewrite He, Hp.
Qed.

(** X2.  If the output root is occupied by something that is not a
    directory, construction raises [FileExistsError] and changes
    nothing. *)
Theorem GeoData_new_root_occupied shp r v output w :
  truthy r = true ∨ truthy v = true →
  exists_at (fs w) (resolve cwd (root_of cwd output)) = true →
  is_dir (fs w) (resolve cwd (root_of cwd output)) = false →
  GeoData_new cwd shp r v output w = (Raise FileExistsError, w).
Proof.
  intros Hrv He Hd. rewrite GeoData_new_unfold.
  replace (negb (truthy r) && negb (truthy v)) with false
    by (by destruct Hrv as [-> | ->], (truthy r), (truthy v)).
  rewrite Path_mkdir_run, mkdir_parents_occupied; [done|by rewrite rev_involutive..].
Qed.

(** X3.  Construction is not all-or-nothing: with both inputs set, an
    existing root, no [output_raster] yet and [output_vector] occupied by
    a file, it creates [output_raster], then raises [FileExistsError], and
    the new directory stays. *)
Theorem GeoData_new_partial shp r v output w node :
  truthy r = true → truthy v = true →
  is_dir (fs w) (resolve cwd (root_of cwd output)) = true →
  fs w !! resolve cwd (raster_dir cwd output) = None →
  fs w !! resolve cwd (vector_dir cwd output) = Some node → node ≠ Dir →
  GeoData_new cwd shp r v output w
  = (Raise FileExistsError,
     set_fs (<[resolve cwd (raster_dir cwd output) := Dir]> (fs w)) w).
Proof.
  intros Hr Hv Hroot Hrd Hvd Hnode. rewrite GeoData_new_unfold, Hr, Hv. simpl.
  rewrite Path_mkdir_exists by done.
  assert (Hne : resolve cwd (raster_dir cwd output) ≠ resolve cwd (vector_dir cwd output)).
  { rewrite raster_dir_resolve, vector_dir_resolve. intros H%app_inv_head. done. }
  rewrite Path_mkdir_run, mkdir_parents_new; rewrite ?rev_involutive; try done.
  - rewrite Path_mkdir_run, fs_set_fs, mkdir_parents_occupied; [done|..];
      rewrite rev_involutive.
    + eapply exists_at_Some. by rewrite lookup_insert_ne.
    + eapply is_dir_file; [|by rewrite lookup_insert_ne|done].
      rewrite vector_dir_resolve. by destruct (resolve cwd (root_of cwd output)).
  - rewrite raster_dir_resolve. by destruct (resolve cwd (root_of cwd output)).
  - rewrite raster_dir_resolve. unfold parent. by rewrite removelast_last.
Qed.






Lemma is_name_vector_cropped : is_name "vector_cropped.shp".
Proof. repeat split; done. Qed.

Lemma is_name_output : is_name "output".
Proof. repeat split; done. Qed.

Lemma resolve_absolute p :
  PosixPath.startswith_sep p = true → resolve cwd p = PosixPath.parts p.
Proof. intros H. unfold resolve. by rewrite H. Qed.

(** X5.  Where the outputs of a constructed job go: the root is
    [output_path] (by default the entry [output] of the working
    directory), the cropped raster is the entry
    [output_raster/raster_cropped.tif] of the root and the cropped vector
    the entry [output_vector/vector_cropped.shp]; the two directory
    attributes exist exactly for the inputs that are set. *)
Theorem GeoData_new_layout shp r v output w g w' :
  GeoData_new cwd shp r v output w = (Ok g, w') →
  output_path g = default (PosixPath.join cwd "output") output
  ∧ (output = None → PosixPath.startswith_sep cwd = true →
     resolve cwd (output_path g) = PosixPath.parts cwd ++ ["output"])
  ∧ (if truthy r
     then ∃ d, output_raster_path g = Some d
               ∧ resolve cwd (PosixPath.join d "raster_cropped.tif")
                 = resolve cwd (output_path g) ++ ["output_raster"; "raster_cropped.tif"]
     else output_raster_path g = None)
  ∧ (if truthy v
     then ∃ d, output_vector_path g = Some d
               ∧ resolve cwd (PosixPath.join d "vector_cropped.shp")
                 = resolve cwd (output_path g) ++ ["output_vector"; "vector_cropped.shp"]
     else output_vector_path g = None).
Proof.
  intros (_ & _ & _ & _ & _ & _ & _ & -> & _)%GeoData_new_Ok. simpl.
  split_and!.
  - done.
  - intros -> Habs. simpl. unfold default_output_path.
    rewrite resolve_join by apply is_name_output. by rewrite resolve_absolute.
  - destruct (truthy r); [|done]. eexists. split; [done|].
    rewrite resolve_join by apply is_name_raster_cropped.
    rewrite raster_dir_resolve. by rewrite <- app_assoc.
  - destruct (truthy v); [|done]. eexists. split; [done|].
    rewrite resolve_join by apply is_name_vector_cropped.
    rewrite vector_dir_resolve. by rewrite <- app_assoc.
Qed.

End GeoDataEdges.

(** ** Computations that do not touch the file system *)

Section KeepsFs.

Variable L : Lib.
Variable cwd : string.

Lemma keeps_fs_bind {A B} (m : M A) (k : A → M B) :
  keeps_fs m → (∀ a, keeps_fs (k a)) → keeps_fs (m ≫= k).
Proof.
  intros Hm Hk w. rewrite bind_run. pose proof (Hm w) as H.
  destruct (m w) as [[a|e] w1]; simpl in *; [|done]. by rewrite Hk.
Qed.

Lemma keeps_fs_mret {A} (a : A) : keeps_fs (mret a : M A).
Proof. done. Qed.

Lemma keeps_fs_getattr g name : keeps_fs (getattr g name).
Proof. intros w. unfold getattr. by destruct (_ !! _). Qed.

Lemma keeps_fs_rasterio_open p : keeps_fs (rasterio_open cwd p).
Proof.
  intros w. destruct p as [p|]; [|done].
  rewrite rasterio_open_run. by destruct (fs w !! resolve cwd p) as [[]|].
Qed.

Lemma keeps_fs_gpd_read_file p : keeps_fs (gpd_read_file cwd p).
Proof.
  intros w. destruct p as [p|]; [|done].
  rewrite gpd_read_file_run. by destruct (fs w !! resolve cwd p) as [[]|].
Qed.

Lemma keeps_fs_to_crs frame crs : keeps_fs (to_crs L frame crs).
Proof. intros w. by rewrite to_crs_run. Qed.

Lemma keeps_fs_mask ds shapes crop : keeps_fs (mask L ds shapes crop).
Proof. intros w. by rewrite mask_run. Qed.

Lemma keeps_fs_RasterCropper_new g : keeps_fs (RasterCropper_new cwd g).
Proof.
  unfold RasterCropper_new.
  apply keeps_fs_bind; [apply keeps_fs_getattr|]. intros ?.
  apply keeps_fs_bind; [apply keeps_fs_rasterio_open|]. intros ?. apply keeps_fs_mret.
Qed.

Lemma keeps_fs_RasterCropper_crop self : keeps_fs (RasterCropper_crop L cwd self).
Proof.
  unfold RasterCropper_crop, RasterCropper_transform_crs.
  apply keeps_fs_bind; [|intros ?; apply keeps_fs_mask].
  apply keeps_fs_bind; [apply keeps_fs_getattr|]. intros ?.
  apply keeps_fs_bind; [apply keeps_fs_gpd_read_file|]. intros ?. apply keeps_fs_to_crs.
Qed.

Lemma keeps_handles_RasterCropper_crop self : keeps_handles (RasterCropper_crop L cwd self).
Proof.
  unfold RasterCropper_crop, RasterCropper_transform_crs.
  apply keeps_bind; [|intros ?; apply keeps_mask].
  apply keeps_bind; [apply keeps_getattr|]. intros ?.
  apply keeps_bind; [apply keeps_gpd_read_file|]. intros ?. apply keeps_to_crs.
Qed.

Lemma keeps_fs_VectorCropper_new g : keeps_fs (VectorCropper_new cwd g).
Proof.
  unfold VectorCropper_new.
  apply keeps_fs_bind; [apply keeps_fs_getattr|]. intros ?.
  apply keeps_fs_bind; [apply keeps_fs_gpd_read_file|]. intros ?. apply keeps_fs_mret.
Qed.

Lemma keeps_fs_BothCropper_new g : keeps_fs (BothCropper_new cwd g).
Proof.
  unfold BothCropper_new.
  apply keeps_fs_bind; [apply keeps_fs_getattr|]. intros ?.
  apply keeps_fs_bind; [apply keeps_fs_rasterio_open|]. intros ?.
  apply keeps_fs_bind; [apply keeps_fs_getattr|]. intros ?.
  apply keeps_fs_bind; [apply keeps_fs_gpd_read_file|]. intros ?. apply keeps_fs_mret.
Qed.

Lemma keeps_fs_VectorCropper_execute self : keeps_fs (VectorCropper_execute L cwd self).
Proof.
  intros w. unfold VectorCropper_execute, VectorCropper_crop, VectorCropper_transform_crs.
  by rewrite !bind_run, getattr_get_crs.
Qed.

Lemma keeps_fs_BothCropper_execute self : keeps_fs (BothCropper_execute L cwd self).
Proof.
  intros w. unfold BothCropper_execute. rewrite bind_run, BothCropper_crop_run.
  destruct (lib_to_crs _ _ _); [|done]. simpl. by destruct (lib_mask _ _ _ _ _).
Qed.

Lemma VectorCropper_execute_fails self w :
  ∃ e, (VectorCropper_execute L cwd self w).1 = Raise e.
Proof.
  unfold VectorCropper_execute, VectorCropper_crop, VectorCropper_transform_crs.
  rewrite !bind_run, getattr_get_crs. by eexists.
Qed.

Lemma BothCropper_execute_fails self w :
  ∃ e, (BothCropper_execute L cwd self w).1 = Raise e.
Proof.
  unfold BothCropper_execute. rewrite bind_run, BothCropper_crop_run.
  destruct (lib_to_crs _ _ _); [|by eexists]. simpl.
  destruct (lib_mask _ _ _ _ _); by eexists.
Qed.

End KeepsFs.

(** ** More on the croppers *)

Section CropperMore.

Variable L : Lib.
Variable cwd : string.

(** [execute] on a cropper, when every step succeeds. *)
Lemma RasterCropper_execute_Ok (self : RasterCropper) w shapefile reprojected cropped t dir :
  fs w !! resolve cwd (shapefile_path (rc_geo_data self)) = Some (VectorFile shapefile) →
  lib_to_crs L shapefile (ds_crs (rc_raster self)) = Ok reprojected →
  lib_mask L (ds_meta (rc_raster self)) (ds_pixels (rc_raster self))
    (layer_geometry reprojected) true = Ok (cropped, t) →
  output_raster_path (rc_geo_data self) = Some dir →
  let out := PosixPath.join dir "raster_cropped.tif" in
  let meta' := update_meta (ds_meta (rc_raster self)) (nd_height cropped) (nd_width cropped) t in
  creatable (fs w) (resolve cwd out) = true →
  lib_create L meta' = Ok tt →
  lib_write L meta' cropped = Ok tt →
  RasterCropper_execute L cwd self w =
    (Ok tt,
     {| fs := <[resolve cwd out := RasterFile meta' (Some cropped)]> (fs w);
        handles := filter (λ x, x.1 ≠ next_handle w)
                     (handles w ++ [(next_handle w, WriteMode)]);
        next_handle := S (next_handle w);
        trace := trace w ++
          [EvReadFile (shapefile_path (rc_geo_data self));
           EvToCrs shapefile (ds_crs (rc_raster self));
           EvMask (ds_handle (rc_raster self)) (layer_geometry reprojected) true;
           EvOpenWrite out meta';
           EvWrite (next_handle w) cropped;
           EvClose (next_handle w)] |}).
Proof.
  intros Hshp Hcrs Hmask Hdir out meta' Hc Hcreate Hwrite.
  unfold RasterCropper_execute, RasterCropper_crop, RasterCropper_transform_crs.
  repeat (progress (rewrite ?bind_run, ?getattr_shapefile_path,
            ?getattr_output_raster_path, ?gpd_read_file_run,
            ?to_crs_run, ?mask_run, ?Hshp, ?Hcrs, ?Hmask, ?Hdir; simpl)).
  rewrite with_open_w_write_Ok; [|done..]. simpl.
  do 2 f_equal. by rewrite <- !app_assoc.
Qed.

(** X7.  Cropping twice is cropping once: a second [execute] on the same
    cropper rewrites the output file with the same content, so the file
    system after the second run is the one after the first. *)
Theorem RasterCropper_execute_twice (self : RasterCropper) w
    shapefile reprojected cropped t dir :
  fs w !! resolve cwd (shapefile_path (rc_geo_data self)) = Some (VectorFile shapefile) →
  lib_to_crs L shapefile (ds_crs (rc_raster self)) = Ok reprojected →
  lib_mask L (ds_meta (rc_raster self)) (ds_pixels (rc_raster self))
    (layer_geometry reprojected) true = Ok (cropped, t) →
  output_raster_path (rc_geo_data self) = Some dir →
  let out := PosixPath.join dir "raster_cropped.tif" in
  let meta' := update_meta (ds_meta (rc_raster self)) (nd_height cropped) (nd_width cropped) t in
  creatable (fs w) (resolve cwd out) = true →
  resolve cwd (shapefile_path (rc_geo_data self)) ≠ resolve cwd out →
  lib_create L meta' = Ok tt →
  lib_write L meta' cropped = Ok tt →
  ∃ w1 w2,
    RasterCropper_execute L cwd self w = (Ok tt, w1)
    ∧ RasterCropper_execute L cwd self w1 = (Ok tt, w2)
    ∧ fs w2 = fs w1
    ∧ fs w1 !! resolve cwd out = Some (RasterFile meta' (Some cropped)).
Proof.
  intros Hshp Hcrs Hmask Hdir out meta' Hc Hne Hcreate Hwrite.
  eexists _, _. split; [by eapply RasterCropper_execute_Ok|].
  split.
  - eapply RasterCropper_execute_Ok; try done; simpl.
    + by rewrite lookup_insert_ne.
    + fold out. unfold creatable in *.
      apply negb_true_iff in Hc. apply negb_true_iff.
      apply orb_false_iff in Hc as [Hc Hp]. apply orb_false_iff in Hc as [Hk Hd].
      apply bool_decide_eq_false in Hk. apply negb_false_iff in Hp.
      rewrite bool_decide_eq_false_2 by done. simpl.
      assert (Hkp : parent (resolve cwd out) ≠ resolve cwd out).
      { unfold parent. intros Heq. destruct (resolve cwd out) as [|a l] using rev_ind; [done|].
        rewrite removelast_last in Heq. apply (f_equal length) in Heq.
        rewrite length_app in Heq. simpl in Heq. lia. }
      apply orb_false_iff. split.
      * unfold is_dir. destruct (resolve cwd out); [done|]. by rewrite lookup_insert_eq.
      * apply negb_false_iff. unfold is_dir in *.
        destruct (parent (resolve cwd out)); [done|]. by rewrite lookup_insert_ne.
  - simpl. fold out meta'. split; [by rewrite insert_insert_eq|by rewrite lookup_insert_eq].
Qed.

(** The three ways [crop] fails. *)
Lemma RasterCropper_crop_run (self : RasterCropper) w :
  RasterCropper_crop L cwd self w =
    let shp := shapefile_path (rc_geo_data self) in
    let w1 := log (EvReadFile shp) w in
    match fs w !! resolve cwd shp with
    | Some (VectorFile shapefile) =>
        let w2 := log (EvToCrs shapefile (ds_crs (rc_raster self))) w1 in
        match lib_to_crs L shapefile (ds_crs (rc_raster self)) with
        | Ok reprojected =>
            (lib_mask L (ds_meta (rc_raster self)) (ds_pixels (rc_raster self))
               (layer_geometry reprojected) true,
             log (EvMask (ds_handle (rc_raster self)) (layer_geometry reprojected) true) w2)
        | Raise e => (Raise e, w2)
        end
    | _ => (Raise DataSourceError, w1)
    end.
Proof.
  unfold RasterCropper_crop, RasterCropper_transform_crs.
  rewrite !bind_run, getattr_shapefile_path. simpl.
  rewrite bind_run, gpd_read_file_run.
  destruct (fs w !! resolve cwd _) as [[| |shapefile]|]; try done.
Qed.

(** X8.  The three ways [execute] fails before writing: the shapefile
    cannot be read, the reprojection raises, or the mask raises (shapes
    outside the raster).  The error is the library's own, and the world
    has only the log of the calls made so far: no file is created, no
    handle opened. *)
Theorem RasterCropper_execute_failures (self : RasterCropper) w :
  let shp := shapefile_path (rc_geo_data self) in
  let crs := ds_crs (rc_raster self) in
  ((∀ l, fs w !! resolve cwd shp ≠ Some (VectorFile l)) →
   RasterCropper_execute L cwd self w = (Raise DataSourceError, log (EvReadFile shp) w))
  ∧ (∀ shapefile e,
       fs w !! resolve cwd shp = Some (VectorFile shapefile) →
       lib_to_crs L shapefile crs = Raise e →
       RasterCropper_execute L cwd self w
       = (Raise e, log (EvToCrs shapefile crs) (log (EvReadFile shp) w)))
  ∧ (∀ shapefile reprojected e,
       fs w !! resolve cwd shp = Some (VectorFile shapefile) →
       lib_to_crs L shapefile crs = Ok reprojected →
       lib_mask L (ds_meta (rc_raster self)) (ds_pixels (rc_raster self))
         (layer_geometry reprojected) true = Raise e →
       RasterCropper_execute L cwd self w
       = (Raise e,
          log (EvMask (ds_handle (rc_raster self)) (layer_geometry reprojected) true)
            (log (EvToCrs shapefile crs) (log (EvReadFile shp) w)))).
Proof.
  intros shp crs. unfold RasterCropper_execute.
  rewrite bind_run, RasterCropper_crop_run. fold shp crs. simpl. split_and!.
  - intros Hno. destruct (fs w !! resolve cwd shp) as [[| |l]|] eqn:E; try done.
    by destruct (Hno l).
  - intros shapefile e -> ->. done.
  - intros shapefile reprojected e -> -> ->. done.
Qed.

End CropperMore.

Section Pipelines.

Variable L : Lib.
Variable cwd : string.

Lemma GeoData_new_keeps_entry shp r v output w g w1 j n :
  GeoData_new cwd shp r v output w = (Ok g, w1) →
  fs w !! j = Some n → fs w1 !! j = Some n.
Proof.
  intros Hnew Hj. destruct (GeoData_new_changes cwd shp r v output w) as (G & _).
  rewrite Hnew in G. simpl in G. destruct (G j) as [->|(E & _)]; [done|congruence].
Qed.

Lemma GeoData_new_keeps_raster_at shp r v output w g w1 p :
  GeoData_new cwd shp r v output w = (Ok g, w1) →
  raster_at cwd (fs w) p = None → raster_at cwd (fs w1) p = None.
Proof.
  intros Hnew Hp. destruct (GeoData_new_changes cwd shp r v output w) as (G & _).
  rewrite Hnew in G. simpl in G. unfold raster_at in *.
  destruct (G (resolve cwd p)) as [->|(_ & -> & _)]; done.
Qed.

(** X6.  The whole raster run from one world: if construction succeeds,
    the raster and the shapefile are files of that world, the library
    calls succeed and the output name is not taken by a directory, then
    constructing the job, building the cropper and executing it succeeds
    and leaves the cropped raster at
    [<root>/output_raster/raster_cropped.tif]; the directories need not
    exist beforehand. *)
Theorem raster_run_end_to_end shp rp v output w g w1
    meta px shapefile reprojected cropped t :
  GeoData_new cwd shp (Some rp) v output w = (Ok g, w1) →
  truthy (Some rp) = true →
  fs w !! resolve cwd rp = Some (RasterFile meta px) →
  fs w !! resolve cwd shp = Some (VectorFile shapefile) →
  lib_to_crs L shapefile (meta_crs meta) = Ok reprojected →
  lib_mask L meta px (layer_geometry reprojected) true = Ok (cropped, t) →
  let outk := resolve cwd (root_of cwd output) ++ ["output_raster"; "raster_cropped.tif"] in
  let meta' := update_meta meta (nd_height cropped) (nd_width cropped) t in
  is_dir (fs w) outk = false →
  lib_create L meta' = Ok tt →
  lib_write L meta' cropped = Ok tt →
  ∃ w',
    (g ← GeoData_new cwd shp (Some rp) v output;
     c ← RasterCropper_new cwd g;
     RasterCropper_execute L cwd c) w = (Ok tt, w')
    ∧ fs w' = <[outk := RasterFile meta' (Some cropped)]> (fs w1)
    ∧ is_dir (fs w') (resolve cwd (root_of cwd output) ++ ["output_raster"]) = true
    ∧ fs w' !! outk = Some (RasterFile meta' (Some cropped)).
Proof.
  intros Hnew Hrp Hraster Hshp Hcrs Hmask outk meta' Hout Hcreate Hwrite.
  pose proof (GeoData_new_keeps_entry _ _ _ _ _ _ _ _ _ Hnew Hraster) as Hraster1.
  pose proof (GeoData_new_keeps_entry _ _ _ _ _ _ _ _ _ Hnew Hshp) as Hshp1.
  destruct (GeoData_new_dirs cwd _ _ _ _ _ _ _ Hnew) as (Hg & _ & Hrd & _).
  specialize (Hrd Hrp). rewrite raster_dir_resolve in Hrd.
  assert (Hk : resolve cwd (PosixPath.join (raster_dir cwd output) "raster_cropped.tif") = outk).
  { rewrite resolve_join by apply is_name_raster_cropped.
    rewrite raster_dir_resolve. unfold outk. by rewrite <- app_assoc. }
  assert (Hout1 : is_dir (fs w1) outk = false).
  { destruct (GeoData_new_changes cwd shp (Some rp) v output w) as (G & _).
    rewrite Hnew in G. simpl in G.
    destruct (G outk) as [E|(_ & _ & [P|P])].
    - unfold is_dir in *. unfold outk in *.
      destruct (resolve cwd (root_of cwd output) ++ _); [done|]. by rewrite E.
    - exfalso. rewrite raster_dir_resolve in P. apply prefix_length in P.
      unfold outk in P. rewrite !length_app in P. simpl in P. lia.
    - exfalso. rewrite vector_dir_resolve in P. apply prefix_length in P.
      unfold outk in P. rewrite !length_app in P. simpl in P. lia. }
  assert (Hrun : (RasterCropper_new cwd g ≫= RasterCropper_execute L cwd) w1
                 = (Ok tt, {| fs := <[outk := RasterFile meta' (Some cropped)]> (fs w1);
                      handles := filter (λ x, x.1 ≠ S (next_handle w1))
                        ((handles w1 ++ [(next_handle w1, ReadMode)])
                           ++ [(S (next_handle w1), WriteMode)]);
                      next_handle := S (S (next_handle w1));
                      trace := (trace w1 ++ [EvOpenRead (Some rp)]) ++
                        [EvReadFile shp; EvToCrs shapefile (meta_crs meta);
                         EvMask (next_handle w1) (layer_geometry reprojected) true;
                         EvOpenWrite (PosixPath.join (raster_dir cwd output) "raster_cropped.tif")
                           meta';
                         EvWrite (S (next_handle w1)) cropped;
                         EvClose (S (next_handle w1))] |})).
  { subst g. unfold RasterCropper_new.
    rewrite !bind_run, getattr_raster_path. simpl.
    rewrite bind_run, rasterio_open_run, Hraster1. simpl.
    erewrite RasterCropper_execute_Ok; simpl; try done.
    - by rewrite Hk.
    - simpl in Hrp. by rewrite Hrp.
    - rewrite Hk. unfold outk. rewrite (app_assoc _ ["output_raster"] ["raster_cropped.tif"]).
      apply creatable_in_dir; [done|]. by rewrite <- app_assoc. }
  eexists. split; [by rewrite bind_run, Hnew|]. simpl.
  split_and!; [done| |by rewrite lookup_insert_eq].
  unfold is_dir in *. destruct (resolve cwd (root_of cwd output) ++ ["output_raster"]) eqn:E;
    [done|]. rewrite lookup_insert_ne; [done|].
  unfold outk. rewrite (app_assoc _ ["output_raster"] ["raster_cropped.tif"]), E.
  intros Heq. apply (f_equal length) in Heq. rewrite length_app in Heq. simpl in Heq. lia.
Qed.

(** X9.  Construction does not look at the raster: a job whose
    [raster_path] is [None] or names no raster file is constructed all
    the same, and the failure only comes when a cropper that needs the
    raster is built, as [TypeError] or as the library's open error; no
    handle stays open, and the directories construction made remain. *)
Theorem missing_raster_fails_at_cropper shp r v output w g w1 :
  GeoData_new cwd shp r v output w = (Ok g, w1) →
  (r = None →
   RasterCropper_new cwd g w1 = (Raise TypeError, log (EvOpenRead None) w1)
   ∧ BothCropper_new cwd g w1 = (Raise TypeError, log (EvOpenRead None) w1))
  ∧ (∀ rp, r = Some rp → raster_at cwd (fs w) rp = None →
     RasterCropper_new cwd g w1 = (Raise RasterioIOError, log (EvOpenRead (Some rp)) w1)
     ∧ BothCropper_new cwd g w1 = (Raise RasterioIOError, log (EvOpenRead (Some rp)) w1))
  ∧ is_dir (fs w1) (resolve cwd (root_of cwd output)) = true.
Proof.
  intros Hnew. destruct (GeoData_new_dirs cwd _ _ _ _ _ _ _ Hnew) as (Hg & Hroot & _).
  split_and!; [| |done].
  - intros ->. subst g. unfold RasterCropper_new, BothCropper_new.
    by rewrite !bind_run, !getattr_raster_path.
  - intros rp -> Hno.
    pose proof (GeoData_new_keeps_raster_at _ _ _ _ _ _ _ _ Hnew Hno) as Hno1.
    subst g. unfold RasterCropper_new, BothCropper_new.
    rewrite !bind_run, !getattr_raster_path. simpl.
    by rewrite !bind_run, !rasterio_open_at, Hno1.
Qed.

(** X10.  [BothCropper.__post_init__] opens the raster before it reads
    the shapefile and never closes it: if the shapefile cannot be read,
    construction raises the read error while the raster's handle stays
    open. *)
Theorem BothCropper_new_leaves_raster_open g w rp meta px :
  raster_path g = Some rp →
  fs w !! resolve cwd rp = Some (RasterFile meta px) →
  (∀ l, fs w !! resolve cwd (shapefile_path g) ≠ Some (VectorFile l)) →
  ∃ w', BothCropper_new cwd g w = (Raise DataSourceError, w')
        ∧ handles w' = handles w ++ [(next_handle w, ReadMode)]
        ∧ fs w' = fs w
        ∧ trace w' = trace w ++ [EvOpenRead (Some rp); EvReadFile (shapefile_path g)].
Proof.
  intros Hrp Hraster Hno. unfold BothCropper_new.
  rewrite !bind_run, getattr_raster_path, Hrp. simpl.
  rewrite bind_run, rasterio_open_run, Hraster. simpl.
  rewrite bind_run, getattr_shapefile_path. simpl.
  rewrite bind_run, gpd_read_file_run. simpl.
  destruct (fs w !! resolve cwd (shapefile_path g)) as [[| |l]|] eqn:E;
    try (eexists; split; [done|]; simpl; split_and!; [done..|by rewrite <- app_assoc]).
  by destruct (Hno l).
Qed.

(** X11.  A vector-only run never produces a file: constructing the job,
    building a [VectorCropper] and executing it always ends in an error,
    and all it can have changed in the file system is to have created
    output directories. *)
Theorem vector_run_writes_nothing shp r v output w :
  let run := (g ← GeoData_new cwd shp r v output;
              c ← VectorCropper_new cwd g;
              VectorCropper_execute L cwd c) w in
  (∃ e, run.1 = Raise e)
  ∧ grown_within (resolve cwd (raster_dir cwd output)) (resolve cwd (vector_dir cwd output))
      (fs w) (fs run.2).
Proof.
  simpl. rewrite bind_run.
  destruct (GeoData_new_changes cwd shp r v output w) as (G & _).
  destruct (GeoData_new cwd shp r v output w) as [[g|e] w1]; simpl in *;
    [|split; [by eexists|done]].
  rewrite bind_run. pose proof (keeps_fs_VectorCropper_new cwd g w1) as K1.
  destruct (VectorCropper_new cwd g w1) as [[c|e] w2]; simpl in *;
    [|split; [by eexists|by rewrite K1]].
  split; [apply VectorCropper_execute_fails|].
  by rewrite (keeps_fs_VectorCropper_execute L cwd c w2), K1.
Qed.

(** X12.  Nor does a combined run: constructing the job, building a
    [BothCropper] and executing it always ends in an error, and all it
    can have changed in the file system is to have created output
    directories. *)
Theorem both_run_writes_nothing shp r v output w :
  let run := (g ← GeoData_new cwd shp r v output;
              c ← BothCropper_new cwd g;
              BothCropper_execute L cwd c) w in
  (∃ e, run.1 = Raise e)
  ∧ grown_within (resolve cwd (raster_dir cwd output)) (resolve cwd (vector_dir cwd output))
      (fs w) (fs run.2).
Proof.
  simpl. rewrite bind_run.
  destruct (GeoData_new_changes cwd shp r v output w) as (G & _).
  destruct (GeoData_new cwd shp r v output w) as [[g|e] w1]; simpl in *;
    [|split; [by eexists|done]].
  rewrite bind_run. pose proof (keeps_fs_BothCropper_new cwd g w1) as K1.
  destruct (BothCropper_new cwd g w1) as [[c|e] w2]; simpl in *;
    [|split; [by eexists|by rewrite K1]].
  split; [apply BothCropper_execute_fails|].
  by rewrite (keeps_fs_BothCropper_execute L cwd c w2), K1.
Qed.

End Pipelines.

(** ** More on [merge_raster] *)

Section MergeMore.

Variable L : Lib.
Variable cwd : string.

Lemma open_all_after paths contents w :
  Forall2 (λ p c, raster_at cwd (fs w) p = Some c) paths contents →
  open_all cwd paths w
  = (Ok (opened_datasets cwd (next_handle w) paths contents), after_opens paths w).
Proof. apply open_all_Ok. Qed.



(** [merge_raster] up to the point where it starts writing. *)
Lemma merge_raster_to_write first rest output w meta0 px0 others merged t :
  Forall2 (λ p c, raster_at cwd (fs w) p = Some c) (first :: rest) ((meta0, px0) :: others) →
  lib_merge L ((meta0, px0) :: others) = Ok (merged, t) →
  merge_raster L cwd (first :: rest) output w
  = with_open_w L cwd (merged_path first output)
      (update_meta meta0 (nd_height merged) (nd_width merged) t)
      (λ dst, dataset_write L dst merged)
      (log (EvMerge (seq (next_handle w) (S (length rest)))) (after_opens (first :: rest) w)).
Proof.
  intros Hopen Hmerge. pose proof (Forall2_length _ _ _ Hopen) as Hlen.
  unfold merge_raster. rewrite bind_run, (open_all_after _ _ _ Hopen).
  rewrite bind_run, merge_run, opened_datasets_contents, opened_datasets_handles by done.
  cbn [opened_datasets]. rewrite Hmerge. simpl.
  assert (Hout : (match output with
                  | Some p => mret p
                  | None => index (first :: rest) 0 ≫= λ p0,
                      mret (PosixPath.join (PosixPath.dirname p0) "raster_merged.tif")
                  end : M string) = mret (merged_path first output)) by by destruct output.
  repeat (progress (rewrite ?bind_run; simpl)).
  by rewrite Hout.
Qed.

(** X14.  If the merge itself raises (inputs that cannot be mosaicked),
    [merge_raster] raises that error; no file is created, and every input
    stays open. *)
Theorem merge_raster_merge_failure first rest output w contents e :
  Forall2 (λ p c, raster_at cwd (fs w) p = Some c) (first :: rest) contents →
  lib_merge L contents = Raise e →
  merge_raster L cwd (first :: rest) output w
  = (Raise e,
     log (EvMerge (seq (next_handle w) (S (length rest)))) (after_opens (first :: rest) w)).
Proof.
  intros Hopen Hmerge. pose proof (Forall2_length _ _ _ Hopen) as Hlen.
  unfold merge_raster. rewrite bind_run, (open_all_after _ _ _ Hopen).
  rewrite bind_run, merge_run, opened_datasets_contents, opened_datasets_handles by done.
  apply Forall2_cons_inv_l in Hopen as (c & cs & _ & _ & ->).
  cbn [opened_datasets]. by rewrite Hmerge.
Qed.

(** X15.  [merge_raster] does not create the directory of its output: if
    the output path lies in a directory that does not exist, or names a
    directory, the run raises the library's error after merging and the
    file system is as it was. *)
Theorem merge_raster_no_output_directory first rest output w meta0 px0 others merged t :
  Forall2 (λ p c, raster_at cwd (fs w) p = Some c) (first :: rest) ((meta0, px0) :: others) →
  lib_merge L ((meta0, px0) :: others) = Ok (merged, t) →
  let outk := resolve cwd (merged_path first output) in
  is_dir (fs w) (parent outk) = false ∨ is_dir (fs w) outk = true →
  ∃ w',
    merge_raster L cwd (first :: rest) output w = (Raise RasterioIOError, w')
    ∧ fs w' = fs w.
Proof.
  intros Hopen Hmerge outk Hbad.
  rewrite (merge_raster_to_write _ _ _ _ _ _ _ _ _ Hopen Hmerge).
  rewrite with_open_w_run, rasterio_open_w_run. simpl. fold outk.
  replace (creatable (fs w) outk) with false; [by eexists|].
  unfold creatable. destruct Hbad as [-> | ->]; simpl; by rewrite ?orb_true_r.
Qed.

(** X16.  If writing the merged array fails after the output was opened,
    the error is raised with the output handle closed, and the output
    file is left created but without pixel data. *)
Theorem merge_raster_write_failure first rest output w meta0 px0 others merged t e :
  Forall2 (λ p c, raster_at cwd (fs w) p = Some c) (first :: rest) ((meta0, px0) :: others) →
  lib_merge L ((meta0, px0) :: others) = Ok (merged, t) →
  let outk := resolve cwd (merged_path first output) in
  let meta' := update_meta meta0 (nd_height merged) (nd_width merged) t in
  creatable (fs w) outk = true →
  lib_create L meta' = Ok tt →
  lib_write L meta' merged = Raise e →
  handles_fresh w →
  ∃ w',
    merge_raster L cwd (first :: rest) output w = (Raise e, w')
    ∧ fs w' = <[outk := RasterFile meta' None]> (fs w)
    ∧ handles w' = handles w ++ read_handles (next_handle w) (S (length rest))
    ∧ last (trace w') = Some (EvClose (next_handle w + S (length rest))).
Proof.
  intros Hopen Hmerge outk meta' Hc Hcreate Hwrite Hw.
  rewrite (merge_raster_to_write _ _ _ _ _ _ _ _ _ Hopen Hmerge).
  rewrite with_open_w_run, rasterio_open_w_run. simpl. fold outk meta'.
  rewrite Hc, Hcreate, dataset_write_run. simpl. rewrite Hwrite. simpl.
  eexists. split; [done|]. simpl. split_and!; [done| |by rewrite last_snoc].
  apply filter_fresh. replace (S (length rest)) with (length (first :: rest)) by done.
  by apply read_handles_fresh.
Qed.

End MergeMore.

(** ** [os.path.dirname] and the default output of [merge_raster] *)

Module DirnameFacts.
Import PosixPath PosixPathFacts.

Abbreviation chars := String.list_ascii_of_string.
Abbreviation str := String.string_of_list_ascii.

Lemma chars_app (a b : string) : chars (a +:+ b) = chars a ++ chars b.
Proof. induction a as [|c a IH]; [done|]. rewrite append_cons. simpl. by rewrite IH. Qed.

Lemma str_app (a b : list ascii) : str (a ++ b) = str a +:+ str b.
Proof. induction a as [|c a IH]; [done|]. simpl. by rewrite IH, append_cons. Qed.

Lemma str_chars (s : string) : str (chars s) = s.
Proof. apply String.string_of_list_ascii_of_string. Qed.

Lemma append_nil_r (a : string) : a +:+ EmptyString = a.
Proof. induction a as [|c a IH]; [done|]. by rewrite append_cons, IH. Qed.

(** A string cut into a single piece has no separator. *)
Lemma split_sep_single s t :
  split_sep s = [t] → Forall (λ c, Ascii.eqb c sep = false) (chars s).
Proof.
  revert t. induction s as [|c r IH]; intros t; simpl; [by constructor|].
  destruct (Ascii.eqb c sep) eqn:Ec.
  - intros [= _ H]. by apply split_sep_nonempty in H.
  - destruct (split_sep r) as [|h tl] eqn:Er; [by apply split_sep_nonempty in Er|].
    intros [= _ ->]. constructor; [done|]. by eapply IH.
Qed.

Lemma drop_basename_no_sep l :
  Forall (λ c, Ascii.eqb c sep = false) l → drop_basename l = [].
Proof. induction 1 as [|c l Hc _ IH]; [done|]. simpl. by rewrite Hc. Qed.

Lemma drop_basename_app l head :
  Forall (λ c, Ascii.eqb c sep = false) l →
  drop_basename (l ++ sep :: head) = sep :: head.
Proof. induction 1 as [|c l Hc _ IH]; [done|]. simpl. by rewrite Hc. Qed.

(** Stripping separators removes a run of them. *)
Lemma lstrip_sep_spec l :
  ∃ k, l = replicate k sep ++ lstrip_sep l.
Proof.
  induction l as [|c l [k IH]]; [by exists 0|]. simpl.
  destruct (Ascii.eqb c sep) eqn:Ec.
  - apply Ascii.eqb_eq in Ec as ->. exists (S k). simpl. by rewrite <- IH.
  - by exists 0.
Qed.

Lemma rev_replicate_sep k : rev (replicate k sep) = replicate k sep.
Proof.
  induction k as [|k IH]; [done|]. simpl. rewrite IH.
  clear IH. induction k as [|k IH]; [done|]. simpl. by rewrite IH.
Qed.

Lemma parts_seps k : parts (str (replicate k sep)) = [].
Proof.
  unfold parts. induction k as [|k IH]; [done|]. simpl.
  rewrite filter_cons, decide_False by (by intros [? _]). done.
Qed.

Lemma parts_app_seps d k : parts (d +:+ str (replicate k sep)) = parts d.
Proof.
  destruct k as [|k]; [by rewrite append_nil_r|]. simpl. unfold parts.
  rewrite split_sep_app_sep, filter_app. fold (parts (str (replicate k sep))).
  by rewrite parts_seps, app_nil_r.
Qed.

Lemma parts_app_sep_name d n : is_name n → parts (d +:+ String sep n) = parts d ++ [n].
Proof.
  intros Hn. unfold parts. rewrite split_sep_app_sep, filter_app.
  f_equal. by apply parts_name.
Qed.

(** The directory part of [d/n] names the same entry as [d/]. *)
Lemma dirname_sep_name d n :
  is_name n →
  parts (dirname (d +:+ String sep n)) = parts d
  ∧ startswith_sep (dirname (d +:+ String sep n)) = startswith_sep (d +:+ String sep n).
Proof.
  intros Hn. destruct Hn as (Hs & _ & _). apply split_sep_single in Hs.
  unfold dirname. rewrite chars_app. simpl. rewrite rev_app_distr. simpl.
  rewrite <- app_assoc. simpl.
  rewrite drop_basename_app by (by apply Forall_rev). simpl.
  rewrite ?Ascii.eqb_refl.
  destruct (lstrip_sep_spec (rev (chars d))) as [k Hk].
  assert (Hd : d = str (rev (lstrip_sep (rev (chars d)))) +:+ str (replicate k sep)).
  { rewrite <- str_app, <- rev_replicate_sep, <- rev_app_distr, <- Hk, rev_involutive.
    by rewrite str_chars. }
  destruct (lstrip_sep (rev (chars d))) as [|c s] eqn:Es.
  - (* the head is made of separators only *)
    simpl. rewrite rev_involutive, str_app, str_chars. simpl.
    change (String sep EmptyString) with (str (replicate 1 sep)).
    rewrite parts_app_seps. split; [done|]. simpl.
    destruct d; done.
  - simpl in Hd. set (d0 := str (rev s ++ [c])) in *.
    assert (Hne : d0 ≠ EmptyString).
    { unfold d0. rewrite str_app. simpl. by destruct (str (rev s)). }
    split.
    + rewrite <- (parts_app_seps d0 k). by rewrite <- Hd.
    + rewrite Hd, string_app_assoc. by rewrite startswith_sep_app by done.
Qed.

End DirnameFacts.

Section MergedPath.

Variable cwd : string.

Lemma is_name_raster_merged : is_name "raster_merged.tif".
Proof. repeat split; done. Qed.

(** A path that ends in a file name names that file in the directory
    [os.path.dirname] gives. *)
Lemma resolve_dirname first n :
  is_name n →
  (first = n ∨ ∃ d, first = d +:+ String PosixPath.sep n) →
  resolve cwd first = resolve cwd (PosixPath.dirname first) ++ [n].
Proof.
  intros Hn Hfirst. destruct Hfirst as [-> | [d ->]].
  - assert (Hd : PosixPath.dirname n = EmptyString).
    { unfold PosixPath.dirname. destruct Hn as (Hs & _ & _).
      apply DirnameFacts.split_sep_single in Hs.
      by rewrite DirnameFacts.drop_basename_no_sep by (by apply Forall_rev). }
    rewrite Hd. unfold resolve. simpl.
    rewrite (PosixPathFacts.is_name_not_abs n Hn), (PosixPathFacts.parts_name n Hn).
    by rewrite app_nil_r.
  - destruct (DirnameFacts.dirname_sep_name d n Hn) as [Hp Ha].
    unfold resolve. rewrite Ha, Hp, DirnameFacts.parts_app_sep_name by done.
    by destruct (PosixPath.startswith_sep (d +:+ String PosixPath.sep n));
      rewrite <- ?app_assoc.
Qed.

(** X17.  When no output path is given, the mosaic goes next to the first
    input: for a first path that ends in a file name, [merge_raster]'s
    output is the entry [raster_merged.tif] of the directory holding that
    file (the working directory for a bare file name). *)
Theorem merged_path_is_sibling first n :
  is_name n →
  (first = n ∨ ∃ d, first = d +:+ String PosixPath.sep n) →
  resolve cwd first = parent (resolve cwd first) ++ [n]
  ∧ resolve cwd (merged_path first None)
    = parent (resolve cwd first) ++ ["raster_merged.tif"].
Proof.
  intros Hn Hfirst. unfold merged_path. simpl.
  rewrite resolve_join by apply is_name_raster_merged.
  rewrite (resolve_dirname first n Hn Hfirst).
  unfold parent. by rewrite removelast_last.
Qed.

End MergedPath.

Section MergeDefault.

Variable L : Lib.
Variable cwd : string.

(** X18.  With no output path the run needs no directory to be prepared:
    in a well-formed tree where the inputs open, the first path ends in a
    file name, the library calls succeed and [raster_merged.tif] next to
    the first input is not a directory, [merge_raster] succeeds and the
    mosaic is written there. *)
Theorem merge_raster_default_output first n rest w meta0 px0 others merged t :
  fs_wf (fs w) →
  is_name n →
  (first = n ∨ ∃ d, first = d +:+ String PosixPath.sep n) →
  Forall2 (λ p c, raster_at cwd (fs w) p = Some c) (first :: rest) ((meta0, px0) :: others) →
  lib_merge L ((meta0, px0) :: others) = Ok (merged, t) →
  let outk := parent (resolve cwd first) ++ ["raster_merged.tif"] in
  let meta' := update_meta meta0 (nd_height merged) (nd_width merged) t in
  is_dir (fs w) outk = false →
  lib_create L meta' = Ok tt →
  lib_write L meta' merged = Ok tt →
  ∃ w',
    merge_raster L cwd (first :: rest) None w = (Ok tt, w')
    ∧ fs w' = <[outk := RasterFile meta' (Some merged)]> (fs w).
Proof.
  intros Hwf Hn Hfirst Hopen Hmerge outk meta' Hout Hcreate Hwrite.
  assert (Hk : resolve cwd (merged_path first None) = outk).
  { unfold merged_path, outk. simpl.
    rewrite resolve_join by apply is_name_raster_merged.
    rewrite (resolve_dirname cwd first n Hn Hfirst).
    unfold parent. by rewrite removelast_last. }
  assert (Hdir : is_dir (fs w) (parent (resolve cwd first)) = true).
  { apply Forall2_cons_1 in Hopen as [H0 _]. unfold raster_at in H0.
    destruct (fs w !! resolve cwd first) as [node|] eqn:E; [|done].
    by destruct (Hwf _ _ E). }
  rewrite (merge_raster_to_write _ _ _ _ _ _ _ _ _ _ _ Hopen Hmerge).
  rewrite with_open_w_write_Ok; [|rewrite ?Hk; simpl; try done..].
  - eexists. split; [done|]. by rewrite Hk.
  - by apply creatable_in_dir.
Qed.

End MergeDefault.

(** * The statements on the example data *)

Section OnExamples.

Import Examples.

Lemma raster_job_constructed :
  GeoData_new cwd "boundary.shp" (Some "region.tif") None None world
  = (Ok raster_job, world_raster).
Proof. vm_compute. reflexivity. Qed.

Lemma both_job_constructed :
  GeoData_new cwd "boundary.shp" (Some "region.tif") (Some "parcels.shp") None world
  = (Ok both_job, world_both).
Proof. vm_compute. reflexivity. Qed.



(** C7 on the raster-only job: [output] and [output/output_raster]
    exist, [output/output_vector] does not, and a second construction
    changes nothing. *)
Lemma GeoData_new_directories_witness :
  is_dir (fs world_raster) ["home"; "user"; "output"] = true
  ∧ is_dir (fs world_raster) ["home"; "user"; "output"; "output_raster"] = true
  ∧ fs world_raster !! ["home"; "user"; "output"; "output_vector"] = None
  ∧ GeoData_new cwd "boundary.shp" (Some "region.tif") None None world_raster
    = (Ok raster_job, world_raster).
Proof.
  destruct (GeoData_new_directories cwd "boundary.shp" (Some "region.tif") None None
              world raster_job world_raster) as (H1 & H2 & H3 & H4);
    [vm_compute; reflexivity|].
  split_and!; [exact H1|exact H2| |exact H4].
  transitivity (fs world !! ["home"; "user"; "output"; "output_vector"]);
    [exact H3|vm_compute; reflexivity].
Defined.

(** C8 on a list with a missing tile. *)
Lemma merge_raster_failures_witness :
  ∃ w',
    merge_raster lib cwd ["tiles/a.tif"; "tiles/missing.tif"] None world
    = (Raise RasterioIOError, w')
    ∧ fs w' = fs world.
Proof.
  assert (Hbad : Exists (λ p, raster_at cwd (fs world) p = None)
                   ["tiles/a.tif"; "tiles/missing.tif"]).
  { apply Exists_cons_tl, Exists_cons_hd. vm_compute. reflexivity. }
  destruct (merge_raster_failures lib cwd ["tiles/a.tif"; "tiles/missing.tif"] None world)
    as (e & w' & Hrun & Hfs & _ & _ & He); [by right|].
  exists w'. rewrite (He Hbad) in Hrun. split; [exact Hrun|exact Hfs].
Defined.

(** C10 with an empty raster path and no vector path. *)
Lemma GeoData_new_empty_string_witness :
  GeoData_new cwd "boundary.shp" (Some EmptyString) None None world
  = (Raise config_error, world).
Proof.
  apply (GeoData_new_empty_string cwd "boundary.shp" (Some EmptyString) None None world).
  - right. reflexivity.
  - left. reflexivity.
Defined.



(** C5 as stated fails: an application holding a raster-only job and a
    [VectorCropper] runs the [VectorCropper]. *)
Lemma Application_does_not_select :
  selected_by_job (app_geo_data mismatched_app) = "RasterCropper"
  ∧ variant (app_cropper mismatched_app) = "VectorCropper"
  ∧ ¬ selects_by_job mismatched_app
  ∧ Application_execute lib cwd mismatched_app world_raster
    = VectorCropper_execute lib cwd
        {| vc_geo_data := raster_job; vc_shapefile := boundary |} world_raster
  ∧ Application_execute lib cwd mismatched_app world_raster
    = (Raise (AttributeError "get_crs"), world_raster).
Proof.
  split_and!; try (vm_compute; reflexivity).
  unfold selects_by_job. vm_compute. discriminate.
Qed.

(** C6 on a job with both inputs: the run stops at the overlay, and
    neither output file exists afterwards. *)
Lemma BothCropper_run_example :
  let run := (BothCropper_new cwd both_job ≫= BothCropper_execute lib cwd) world_both in
  run.1 = Raise (AttributeError "crs")
  ∧ fs run.2 !! ["home"; "user"; "output"; "output_raster"; "raster_cropped.tif"] = None
  ∧ fs run.2 !! ["home"; "user"; "output"; "output_vector"; "vector_cropped.shp"] = None.
Proof. split_and!; vm_compute; reflexivity. Qed.

End OnExamples.

(** * The further statements on the example data *)

Section MoreOnExamples.

Import Examples MoreExamples.

(** X2 with a file named [output] in the working directory. *)
Lemma GeoData_new_root_occupied_witness :
  GeoData_new cwd "boundary.shp" (Some "region.tif") None None world_root_taken
  = (Raise FileExistsError, world_root_taken).
Proof.
  apply (GeoData_new_root_occupied cwd "boundary.shp" (Some "region.tif") None None
           world_root_taken).
  - left. reflexivity.
  - vm_compute. reflexivity.
  - vm_compute. reflexivity.
Defined.

(** X3 with a file named [output_vector] in the output root. *)
Lemma GeoData_new_partial_witness :
  (GeoData_new cwd "boundary.shp" (Some "region.tif") (Some "parcels.shp") None
     world_vector_taken).1 = Raise FileExistsError
  ∧ is_dir (fs (GeoData_new cwd "boundary.shp" (Some "region.tif") (Some "parcels.shp") None
                  world_vector_taken).2)
      ["home"; "user"; "output"; "output_raster"] = true.
Proof.
  rewrite (GeoData_new_partial cwd "boundary.shp" (Some "region.tif") (Some "parcels.shp")
             None world_vector_taken (VectorFile boundary));
    [split; vm_compute; reflexivity|try (vm_compute; reflexivity)..].
  discriminate.
Defined.

Lemma world_wf : fs_wf (fs world).
Proof. unfold fs_wf. apply (bool_decide_unpack _). vm_compute. exact I. Qed.


(** X5 on the raster-only job. *)
Lemma GeoData_new_layout_witness :
  resolve cwd (output_path raster_job) = ["home"; "user"; "output"]
  ∧ output_vector_path raster_job = None.
Proof.
  destruct (GeoData_new_layout cwd "boundary.shp" (Some "region.tif") None None
              world raster_job world_raster) as (_ & H & _ & Hv);
    [vm_compute; reflexivity|].
  split; [|exact Hv]. rewrite H; [vm_compute; reflexivity|reflexivity|reflexivity].
Defined.

(** X6 from the example world, where no output directory exists yet. *)
Lemma raster_run_end_to_end_witness :
  fs world !! ["home"; "user"; "output"] = None
  ∧ ∃ w',
      (g ← GeoData_new cwd "boundary.shp" (Some "region.tif") None None;
       c ← RasterCropper_new cwd g;
       RasterCropper_execute lib cwd c) world = (Ok tt, w')
      ∧ fs w' !! ["home"; "user"; "output"; "output_raster"; "raster_cropped.tif"]
        = Some (RasterFile (update_meta (meta_of "PNG" 3 3) 2 2 transform)
                  (Some cropped_region)).
Proof.
  split; [vm_compute; reflexivity|].
  destruct (raster_run_end_to_end lib cwd "boundary.shp" "region.tif" None None
              world raster_job world_raster
              (meta_of "PNG" 3 3) (Some region) boundary reprojected_boundary
              cropped_region transform)
    as (w' & Hrun & _ & _ & Hout); [vm_compute; reflexivity..|].
  exists w'. split; [exact Hrun|exact Hout].
Defined.

(** X7 on the raster-only job. *)
Lemma RasterCropper_execute_twice_witness :
  ∃ w1 w2,
    RasterCropper_execute lib cwd raster_cropper world_raster = (Ok tt, w1)
    ∧ RasterCropper_execute lib cwd raster_cropper w1 = (Ok tt, w2)
    ∧ fs w2 = fs w1.
Proof.
  destruct (RasterCropper_execute_twice lib cwd raster_cropper world_raster
              boundary reprojected_boundary cropped_region transform
              "/home/user/output/output_raster")
    as (w1 & w2 & H1 & H2 & H3 & _); [try (vm_compute; reflexivity)..|].
  - vm_compute. discriminate.
  - by exists w1, w2.
Defined.

(** X9 on a job whose raster is missing. *)
Lemma missing_raster_fails_at_cropper_witness :
  GeoData_new cwd "boundary.shp" (Some "missing.tif") None None world = (Ok lost_job, world_lost)
  ∧ (RasterCropper_new cwd lost_job world_lost).1 = Raise RasterioIOError.
Proof.
  assert (Hnew : GeoData_new cwd "boundary.shp" (Some "missing.tif") None None world
                 = (Ok lost_job, world_lost)) by (vm_compute; reflexivity).
  split; [exact Hnew|].
  destruct (missing_raster_fails_at_cropper cwd "boundary.shp" (Some "missing.tif") None None
              world lost_job world_lost Hnew) as (_ & H & _).
  destruct (H "missing.tif" eq_refl) as [-> _]; [vm_compute; reflexivity|reflexivity].
Defined.

(** X10 on a job whose shapefile is missing. *)
Lemma BothCropper_new_leaves_raster_open_witness :
  ∃ w', BothCropper_new cwd no_shape_job world = (Raise DataSourceError, w')
        ∧ handles w' = [(0, ReadMode)].
Proof.
  destruct (BothCropper_new_leaves_raster_open cwd no_shape_job world "region.tif"
              (meta_of "PNG" 3 3) (Some region)) as (w' & Hrun & Hh & _).
  - reflexivity.
  - vm_compute. reflexivity.
  - intros l. vm_compute. discriminate.
  - exists w'. split; [exact Hrun|exact Hh].
Defined.


(** X14 on a first tile without pixel data, which the stand-in merge
    refuses. *)
Lemma merge_raster_merge_failure_witness :
  (merge_raster lib cwd ["tiles/hollow.tif"; "tiles/a.tif"] None world_hollow).1
  = Raise (LibraryError "merge").
Proof.
  rewrite (merge_raster_merge_failure lib cwd "tiles/hollow.tif" ["tiles/a.tif"] None
             world_hollow
             [(meta_of "PNG" 2 2, None); (meta_of "PNG" 2 2, Some tile_a)]
             (LibraryError "merge")); [reflexivity| |reflexivity].
  repeat constructor.
Defined.

(** X15 with an output path in a directory that does not exist. *)
Lemma merge_raster_no_output_directory_witness :
  ∃ w',
    merge_raster lib cwd ["tiles/a.tif"; "tiles/b.tif"] (Some "nowhere/out.tif") world
    = (Raise RasterioIOError, w')
    ∧ fs w' = fs world.
Proof.
  apply (merge_raster_no_output_directory lib cwd "tiles/a.tif" ["tiles/b.tif"]
           (Some "nowhere/out.tif") world (meta_of "PNG" 2 2) (Some tile_a)
           [(meta_of "PNG" 2 2, Some tile_b)] merged_tiles transform).
  - repeat constructor.
  - vm_compute. reflexivity.
  - left. vm_compute. reflexivity.
Defined.

(** X16 with the driver that refuses every write. *)
Lemma merge_raster_write_failure_witness :
  ∃ w',
    merge_raster lib_no_write cwd ["tiles/a.tif"; "tiles/b.tif"] None world
    = (Raise (LibraryError "write"), w')
    ∧ fs w' !! ["home"; "user"; "tiles"; "raster_merged.tif"]
      = Some (RasterFile (update_meta (meta_of "PNG" 2 2) 2 4 transform) None)
    ∧ handles w' = [(0, ReadMode); (1, ReadMode)].
Proof.
  destruct (merge_raster_write_failure lib_no_write cwd "tiles/a.tif" ["tiles/b.tif"] None
              world (meta_of "PNG" 2 2) (Some tile_a) [(meta_of "PNG" 2 2, Some tile_b)]
              merged_tiles transform (LibraryError "write"))
    as (w' & Hrun & Hfs & Hh & _).
  - repeat constructor.
  - vm_compute. reflexivity.
  - vm_compute. reflexivity.
  - vm_compute. reflexivity.
  - reflexivity.
  - unfold handles_fresh. vm_compute. constructor.
  - exists w'. split_and!; [exact Hrun| |exact Hh].
    rewrite Hfs. vm_compute. reflexivity.
Defined.

(** X17 for a tile in [tiles]. *)
Lemma merged_path_is_sibling_witness :
  resolve cwd (merged_path "tiles/a.tif" None) = ["home"; "user"; "tiles"; "raster_merged.tif"].
Proof.
  destruct (merged_path_is_sibling cwd "tiles/a.tif" "a.tif") as [_ H].
  - repeat split; done.
  - right. by exists "tiles".
  - rewrite H. vm_compute. reflexivity.
Defined.

(** X18 on the two tiles. *)
Lemma merge_raster_default_output_witness :
  ∃ w',
    merge_raster lib cwd ["tiles/a.tif"; "tiles/b.tif"] None world = (Ok tt, w')
    ∧ fs w' !! ["home"; "user"; "tiles"; "raster_merged.tif"]
      = Some (RasterFile (update_meta (meta_of "PNG" 2 2) 2 4 transform) (Some merged_tiles)).
Proof.
  destruct (merge_raster_default_output lib cwd "tiles/a.tif" "a.tif" ["tiles/b.tif"] world
              (meta_of "PNG" 2 2) (Some tile_a) [(meta_of "PNG" 2 2, Some tile_b)]
              merged_tiles transform)
    as (w' & Hrun & Hfs).
  - exact world_wf.
  - repeat split; done.
  - right. by exists "tiles".
  - repeat constructor.
  - vm_compute. reflexivity.
  - vm_compute. reflexivity.
  - vm_compute. reflexivity.
  - vm_compute. reflexivity.
  - exists w'. split; [exact Hrun|]. rewrite Hfs. vm_compute. reflexivity.
Defined.

End MoreOnExamples.
